(** * EV bicycle service portal: complaint lifecycle, role-scoped views

    A shallow embedding of the three React components of the portal
    ([App.jsx] with [Login], [CustomerDashboard.jsx] and the company
    dashboard) together with the part of the hosted store they talk to.

    - React state ([useState]) is a record per component.
    - A handler is a computation in a small state monad over a [World]:
      the component state, the two store tables, the browser console,
      the [alert] boxes and the browser clock.
    - A store request is resolved on the spot (handlers run to completion);
      whether the store serves it or answers with an error is an explicit
      [Outcome] argument of the handler, one per request it issues.
    - Where the time between a request and its answer matters ([App]'s
      role lookup) the callback and the answer are separate events
      ([App.run_async]); the session prop of a mounted customer dashboard
      can change ([CustomerDashboard.run_mounted]).
    - [try { ... if (error) throw error; ... } catch { ... } finally { ... }]
      becomes a [match] on the [error] field of the response, followed by
      the [finally] block. *)

From Stdlib Require Import List String ZArith Lia Bool.
From Stdlib Require Import Permutation Sorting.Sorted.
Import ListNotations.

Open Scope string_scope.
Open Scope Z_scope.
Open Scope list_scope.

(** ** JavaScript values as the components use them *)

Module Js.

(** [a === b] on strings. *)
Definition strict_eq (a b : string) : bool := String.eqb a b.

(** [data || []]: [null] is falsy, every array (the empty one too) is truthy. *)
Definition or_empty {A : Type} (data : option (list A)) : list A :=
  match data with
  | Some l => l
  | None => []
  end.

(** [v || d] on a nullable string: [null], [undefined] and [""] are falsy. *)
Definition or_string (v : option string) (d : string) : string :=
  match v with
  | Some s => if strict_eq s "" then d else s
  | None => d
  end.

(** [o?.f]: a property read through optional chaining. *)
Definition opt_chain {A B : Type} (o : option A) (f : A -> option B) : option B :=
  match o with
  | Some a => f a
  | None => None
  end.

End Js.

Infix "===" := Js.strict_eq (at level 69, no associativity).

(** ** Rows of the two tables *)

(** An instant: milliseconds since the epoch.  The code carries instants as
    ISO-8601 strings ([new Date().toISOString()]); only their order matters
    here. *)
Definition Timestamp := Z.

Record Complaint := mkComplaint {
  id : string;
  user_id : string;
  bicycle_model : string;
  issue_type : string;
  description : string;
  priority : string;
  status : string;
  company_notes : option string;
  created_at : Timestamp;
  updated_at : Timestamp
}.

Record User := mkUser {
  u_id : string;
  u_email : string;
  u_name : string;
  u_phone : string;
  u_role : option string
}.

(** The embedded [users (name, email, phone)] of the company dashboard's select. *)
Record Contact := mkContact {
  name : string;
  email : string;
  phone : string
}.

(** A row of [select("*, users (name, email, phone)")]. *)
Record JoinedComplaint := mkJoined {
  complaint :> Complaint;
  users : option Contact
}.

Record Session := mkSession {
  session_user_id : string;
  session_user_email : string
}.

(** ** The hosted store *)

Module Store.

Record Database := mkDatabase {
  complaints_table : list Complaint;
  users_table : list User
}.

(** What a request resolves to: [{ data, error }]. *)
Record Response (A : Type) := mkResponse {
  data : option A;
  error : option string
}.
Arguments mkResponse {A} _ _.
Arguments data {A} _.
Arguments error {A} _.

(** The fate of one request: served ([None]) or answered with an error. *)
Definition Outcome := option string.

Definition failed {A : Type} (e : string) : Response A :=
  mkResponse None (Some e).

Definition served {A : Type} (a : A) : Response A :=
  mkResponse (Some a) None.

(** [.order("created_at", { ascending: false })]: newest first. *)
Fixpoint insert_desc (c : Complaint) (l : list Complaint) : list Complaint :=
  match l with
  | [] => [c]
  | d :: l' =>
      if created_at d <=? created_at c then c :: d :: l'
      else d :: insert_desc c l'
  end.

Definition order_created_at_desc (l : list Complaint) : list Complaint :=
  fold_right insert_desc [] l.

(** [.eq("user_id", uid)] *)
Definition eq_user_id (uid : string) (l : list Complaint) : list Complaint :=
  filter (fun c => user_id c === uid) l.

(** [from("complaints").select("*").eq("user_id", uid).order(...)] *)
Definition select_own (uid : string) (o : Outcome) (db : Database)
  : Response (list Complaint) :=
  match o with
  | Some e => failed e
  | None => served (order_created_at_desc (eq_user_id uid (complaints_table db)))
  end.

Definition contact_of (u : User) : Contact :=
  mkContact (u_name u) (u_email u) (u_phone u).

Definition join_user (us : list User) (c : Complaint) : JoinedComplaint :=
  mkJoined c (option_map contact_of (find (fun u => u_id u === user_id c) us)).

(** [from("complaints").select("*, users (name, email, phone)").order(...)] *)
Definition select_joined (o : Outcome) (db : Database)
  : Response (list JoinedComplaint) :=
  match o with
  | Some e => failed e
  | None =>
      served (map (join_user (users_table db))
                  (order_created_at_desc (complaints_table db)))
  end.

(** The columns [handleSubmit] sends. *)
Record NewComplaint := mkNewComplaint {
  n_user_id : string;
  n_bicycle_model : string;
  n_issue_type : string;
  n_description : string;
  n_priority : string;
  n_status : string
}.

(** The columns the table fills in by itself on insert.  The table
    definition is not part of the components; the generated values are
    taken as they come. *)
Record Generated := mkGenerated {
  g_id : string;
  g_created_at : Timestamp;
  g_updated_at : Timestamp
}.

Definition new_row (g : Generated) (n : NewComplaint) : Complaint :=
  {| id := g_id g;
     user_id := n_user_id n;
     bicycle_model := n_bicycle_model n;
     issue_type := n_issue_type n;
     description := n_description n;
     priority := n_priority n;
     status := n_status n;
     company_notes := None;
     created_at := g_created_at g;
     updated_at := g_updated_at g |}.

(** [from("complaints").insert([n])] *)
Definition insert_complaint (o : Outcome) (g : Generated) (n : NewComplaint)
    (db : Database) : Response unit * Database :=
  match o with
  | Some e => (failed e, db)
  | None =>
      (served tt,
       {| complaints_table := complaints_table db ++ [new_row g n];
          users_table := users_table db |})
  end.

(** The object given to [.update(...)]: only the listed columns change. *)
Record Patch := mkPatch {
  p_status : option string;
  p_company_notes : option string;
  p_updated_at : option Timestamp
}.

Definition apply_patch (p : Patch) (c : Complaint) : Complaint :=
  {| id := id c;
     user_id := user_id c;
     bicycle_model := bicycle_model c;
     issue_type := issue_type c;
     description := description c;
     priority := priority c;
     status := match p_status p with Some s => s | None => status c end;
     company_notes :=
       match p_company_notes p with Some n => Some n | None => company_notes c end;
     created_at := created_at c;
     updated_at :=
       match p_updated_at p with Some t => t | None => updated_at c end |}.

(** [from("complaints").update(p).eq("id", cid)]: every row whose id
    matches is patched; matching no row is not an error. *)
Definition update_complaint (o : Outcome) (cid : string) (p : Patch)
    (db : Database) : Response unit * Database :=
  match o with
  | Some e => (failed e, db)
  | None =>
      (served tt,
       {| complaints_table :=
            map (fun c => if id c === cid then apply_patch p c else c)
                (complaints_table db);
          users_table := users_table db |})
  end.

(** The object of [select("role")]. *)
Record RoleRow := mkRoleRow { role : option string }.

(** [from("users").select("role").eq("id", uid).single()]: an error
    unless exactly one row matches. *)
Definition select_role_single (uid : string) (o : Outcome) (db : Database)
  : Response RoleRow :=
  match o with
  | Some e => failed e
  | None =>
      match filter (fun u => u_id u === uid) (users_table db) with
      | [u] => served (mkRoleRow (u_role u))
      | _ => failed "PGRST116"
      end
  end.

(** [from("users").insert([u])] *)
Definition insert_user (o : Outcome) (u : User) (db : Database)
  : Response unit * Database :=
  match o with
  | Some e => (failed e, db)
  | None =>
      (served tt,
       {| complaints_table := complaints_table db;
          users_table := users_table db ++ [u] |})
  end.

End Store.

(** ** Handlers as state-passing computations *)

(** One [console.error(label, error)] call. *)
Record LogEntry := mkLog { log_label : string; log_error : string }.

(** Everything a handler of a component with state [S] can read or change. *)
Record World (S : Type) := mkWorld {
  ui : S;
  db : Store.Database;
  console : list LogEntry;
  alerts : list string;
  clock : Timestamp
}.
Arguments mkWorld {S} _ _ _ _ _.
Arguments ui {S} _.
Arguments db {S} _.
Arguments console {S} _.
Arguments alerts {S} _.
Arguments clock {S} _.

Definition M (S A : Type) : Type := World S -> A * World S.

Definition ret {S A : Type} (a : A) : M S A := fun w => (a, w).

Definition bind {S A B : Type} (m : M S A) (k : A -> M S B) : M S B :=
  fun w => let (a, w') := m w in k a w'.

Notation "x <- m ;; k" := (bind m (fun x => k))
  (at level 61, m at next level, right associativity).
Notation "m ;; k" := (bind m (fun _ => k))
  (at level 61, right associativity).

(** The world a computation leaves behind. *)
Definition exec {S A : Type} (m : M S A) (w : World S) : World S := snd (m w).

(** A [setX(...)] of [useState]. *)
Definition modify_ui {S : Type} (f : S -> S) : M S unit :=
  fun w => (tt, mkWorld (f (ui w)) (db w) (console w) (alerts w) (clock w)).

Definition read_ui {S A : Type} (f : S -> A) : M S A :=
  fun w => (f (ui w), w).

(** [console.error(label, error)] *)
Definition console_error {S : Type} (label e : string) : M S unit :=
  fun w => (tt, mkWorld (ui w) (db w) (mkLog label e :: console w) (alerts w) (clock w)).

(** [alert(msg)] *)
Definition alert {S : Type} (msg : string) : M S unit :=
  fun w => (tt, mkWorld (ui w) (db w) (console w) (msg :: alerts w) (clock w)).

(** [new Date().toISOString()]: the browser's clock. *)
Definition new_Date {S : Type} : M S Timestamp :=
  fun w => (clock w, w).

(** [await] of a request that only reads the tables. *)
Definition query {S A : Type} (q : Store.Database -> Store.Response A)
  : M S (Store.Response A) :=
  fun w => (q (db w), w).

(** [await] of a request that changes the tables. *)
Definition mutate {S A : Type}
    (q : Store.Database -> Store.Response A * Store.Database)
  : M S (Store.Response A) :=
  fun w => let (r, d) := q (db w) in
           (r, mkWorld (ui w) d (console w) (alerts w) (clock w)).

(** ** Object literals used as lookup tables *)

Module JsObject.

(** The property names every object literal inherits from
    [Object.prototype]; reading one of them yields a function or an object,
    never [undefined]. *)
Definition inherited_keys : list string :=
  ["constructor"; "__proto__"; "hasOwnProperty"; "isPrototypeOf";
   "propertyIsEnumerable"; "toLocaleString"; "toString"; "valueOf";
   "__defineGetter__"; "__defineSetter__"; "__lookupGetter__";
   "__lookupSetter__"].

(** What [table[key] || fallback] evaluates to. *)
Inductive Value :=
| Str (s : string)
| Inherited (key : string).

Fixpoint own (table : list (string * string)) (key : string) : option string :=
  match table with
  | [] => None
  | (k, v) :: table' => if k === key then Some v else own table' key
  end.

(** [table[key] || fallback] for an object literal with string values. *)
Definition get_or (table : list (string * string)) (key fallback : string)
  : Value :=
  match own table key with
  | Some v => if v === "" then Str fallback else Str v
  | None =>
      if existsb (fun k => k === key) inherited_keys then Inherited key
      else Str fallback
  end.

End JsObject.

(** ** CustomerDashboard.jsx *)

Module CustomerDashboard.

Record FormData := mkFormData {
  f_bicycle_model : string;
  f_issue_type : string;
  f_description : string;
  f_priority : string
}.

Record State := mkState {
  complaints : list Complaint;
  loading : bool;
  showForm : bool;
  formData : FormData
}.

Definition empty_form : FormData := mkFormData "" "" "" "medium".

(** The [useState] initial values. *)
Definition initial : State := mkState [] true false empty_form.

Definition setComplaints (l : list Complaint) : M State unit :=
  modify_ui (fun s => mkState l (loading s) (showForm s) (formData s)).

Definition setLoading (b : bool) : M State unit :=
  modify_ui (fun s => mkState (complaints s) b (showForm s) (formData s)).

Definition setShowForm (b : bool) : M State unit :=
  modify_ui (fun s => mkState (complaints s) (loading s) b (formData s)).

Definition setFormData (f : FormData) : M State unit :=
  modify_ui (fun s => mkState (complaints s) (loading s) (showForm s) f).

Definition fetchComplaints (session : Session) (o : Store.Outcome)
  : M State unit :=
  r <- query (Store.select_own (session_user_id session) o) ;;
  match Store.error r with
  | None => setComplaints (Js.or_empty (Store.data r))
  | Some e => console_error "Error fetching complaints:" e
  end ;;
  setLoading false.

(** [o] decides the insert, [g] is what the table generates for the new
    row, [o'] decides the fetch that follows a successful insert. *)
Definition handleSubmit (session : Session) (o : Store.Outcome)
    (g : Store.Generated) (o' : Store.Outcome) : M State unit :=
  setLoading true ;;
  fd <- read_ui formData ;;
  r <- mutate (Store.insert_complaint o g
         {| Store.n_user_id := session_user_id session;
            Store.n_bicycle_model := f_bicycle_model fd;
            Store.n_issue_type := f_issue_type fd;
            Store.n_description := f_description fd;
            Store.n_priority := f_priority fd;
            Store.n_status := "pending" |}) ;;
  match Store.error r with
  | None =>
      setShowForm false ;;
      setFormData empty_form ;;
      alert "Service request submitted successfully!" ;;
      fetchComplaints session o'
  | Some e =>
      console_error "Error submitting complaint:" e ;;
      alert "Error submitting request. Please try again."
  end ;;
  setLoading false.

(** [handleChange]: [{ ...formData, [e.target.name]: e.target.value }] for
    the four named controls of the form; any other name adds a property
    the component never reads. *)
Definition handleChange (field value : string) : M State unit :=
  fd <- read_ui formData ;;
  setFormData
    (if field === "bicycle_model" then
       mkFormData value (f_issue_type fd) (f_description fd) (f_priority fd)
     else if field === "issue_type" then
       mkFormData (f_bicycle_model fd) value (f_description fd) (f_priority fd)
     else if field === "description" then
       mkFormData (f_bicycle_model fd) (f_issue_type fd) value (f_priority fd)
     else if field === "priority" then
       mkFormData (f_bicycle_model fd) (f_issue_type fd) (f_description fd) value
     else fd).

(** The [required] attribute of a form control: the browser does not
    dispatch the form's submit event while the control's value is empty. *)
Definition required (value : string) : bool := negb (value === "").

Definition form_valid (fd : FormData) : bool :=
  required (f_bicycle_model fd) && required (f_issue_type fd)
  && required (f_priority fd) && required (f_description fd).

(** The form's own part of a submit,
    [<form onSubmit={handleSubmit}>] with four [required] controls, for a
    form that is in the page with its button enabled and whose controls
    hold the values of [formData].  The click itself, with the conditions
    under which the form is rendered and the button enabled, is
    [submitButton] below. *)
Definition onSubmit (session : Session) (o : Store.Outcome)
    (g : Store.Generated) (o' : Store.Outcome) : M State unit :=
  fd <- read_ui formData ;;
  if form_valid fd then handleSubmit session o g o' else ret tt.

(** What the component returns. *)
Inductive View :=
| LoadingView
| ListView (cards : list Complaint).

Definition render (s : State) : View :=
  if loading s && (List.length (complaints s) =? 0)%nat then LoadingView
  else ListView (complaints s).

(** What can happen to a mounted dashboard. *)
Inductive Event :=
| Refresh (o : Store.Outcome)
    (* mount, or a change notification on the subscription *)
| Submit (o : Store.Outcome) (g : Store.Generated) (o' : Store.Outcome)
| Change (field value : string)
| ToggleForm
| Remote (d : Store.Database)
    (* other sessions rewrite the tables *)
| Tick (t : Timestamp).

Definition step (session : Session) (e : Event) : M State unit :=
  match e with
  | Refresh o => fetchComplaints session o
  | Submit o g o' => onSubmit session o g o'
  | Change field value => handleChange field value
  | ToggleForm => b <- read_ui showForm ;; setShowForm (negb b)
  | Remote d => fun w => (tt, mkWorld (ui w) d (console w) (alerts w) (clock w))
  | Tick t => fun w => (tt, mkWorld (ui w) (db w) (console w) (alerts w) t)
  end.

(** The events of a dashboard whose session prop stays the same
    ([run_mounted] below lets the prop change). *)
Fixpoint run (session : Session) (es : list Event) : M State unit :=
  match es with
  | [] => ret tt
  | e :: es' => step session e ;; run session es'
  end.

(** The world in which the component mounts. *)
Definition mount (d : Store.Database) (t : Timestamp) : World State :=
  mkWorld initial d [] [] t.

Definition getStatusColor (status : string) : JsObject.Value :=
  JsObject.get_or
    [("pending", "#f59e0b"); ("in-progress", "#3b82f6");
     ("completed", "#10b981"); ("cancelled", "#ef4444")]
    status "#6b7280".

Definition getPriorityColor (priority : string) : JsObject.Value :=
  JsObject.get_or
    [("low", "#10b981"); ("medium", "#f59e0b"); ("high", "#ef4444")]
    priority "#6b7280".

(** [useEffect(..., [session.user.id])]: [App] renders the dashboard
    without a key, so a session of another user reaches the mounted
    component as a new prop; the effect then runs again and fetches for the
    new session.  Nothing resets the state. *)
Definition sessionPropChanged (old new : Session) (o : Store.Outcome)
  : M State unit :=
  if session_user_id old === session_user_id new then ret tt
  else fetchComplaints new o.

(** What can happen to a mounted dashboard, its session prop included. *)
Inductive Mounted :=
| Local (e : Event)
| SessionProp (s : Session) (o : Store.Outcome).

(** Runs the events and returns the session the component ends with. *)
Fixpoint run_mounted (session : Session) (es : list Mounted) : M State Session :=
  match es with
  | [] => ret session
  | Local e :: es' => step session e ;; run_mounted session es'
  | SessionProp s o :: es' =>
      sessionPropChanged session s o ;; run_mounted s es'
  end.

(** The options of the two [<select>] controls of the form. *)
Definition issue_options : list string :=
  [""; "battery"; "motor"; "brakes"; "electrical"; "mechanical"; "display";
   "other"].

Definition priority_options : list string := ["low"; "medium"; "high"].

(** The value a [<select value={v}>] holds in the page: [v] when it is the
    value of one of the options, the first option's otherwise. *)
Definition select_value (options : list string) (v : string) : string :=
  if existsb (fun o => o === v) options then v else hd "" options.

(** The form is in the page: the component is past its loading view and
    [showForm] is set. *)
Definition form_shown (s : State) : bool :=
  negb (loading s && (List.length (complaints s) =? 0)%nat) && showForm s.

(** The browser's validation of the four [required] controls as the page
    holds them. *)
Definition controls_valid (fd : FormData) : bool :=
  required (f_bicycle_model fd)
  && required (select_value issue_options (f_issue_type fd))
  && required (select_value priority_options (f_priority fd))
  && required (f_description fd).

(** A click on the submit button: the form must be in the page, the
    button is [disabled={loading}], and the browser dispatches the submit
    event only when the four controls are valid. *)
Definition submitButton (session : Session) (o : Store.Outcome)
    (g : Store.Generated) (o' : Store.Outcome) : M State unit :=
  s <- read_ui (fun s => s) ;;
  if form_shown s && negb (loading s) && controls_valid (formData s)
  then handleSubmit session o g o'
  else ret tt.

End CustomerDashboard.

(** ** The company dashboard *)

Module CompanyDashboard.

Record Stats := mkStats {
  total : nat;
  pending : nat;
  inProgress : nat;
  completed : nat
}.

Record State := mkState {
  complaints : list JoinedComplaint;
  filteredComplaints : list JoinedComplaint;
  loading : bool;
  filter : string;
  selectedComplaint : option JoinedComplaint;
  companyNotes : string;
  stats : Stats
}.

(** The [useState] initial values. *)
Definition initial : State :=
  mkState [] [] true "pending" None "" (mkStats 0 0 0 0).

Definition setComplaints (l : list JoinedComplaint) : M State unit :=
  modify_ui (fun s =>
    mkState l (filteredComplaints s) (loading s) (filter s)
            (selectedComplaint s) (companyNotes s) (stats s)).

Definition setFilteredComplaints (l : list JoinedComplaint) : M State unit :=
  modify_ui (fun s =>
    mkState (complaints s) l (loading s) (filter s)
            (selectedComplaint s) (companyNotes s) (stats s)).

Definition setLoading (b : bool) : M State unit :=
  modify_ui (fun s =>
    mkState (complaints s) (filteredComplaints s) b (filter s)
            (selectedComplaint s) (companyNotes s) (stats s)).

Definition setFilter (f : string) : M State unit :=
  modify_ui (fun s =>
    mkState (complaints s) (filteredComplaints s) (loading s) f
            (selectedComplaint s) (companyNotes s) (stats s)).

Definition setSelectedComplaint (c : option JoinedComplaint) : M State unit :=
  modify_ui (fun s =>
    mkState (complaints s) (filteredComplaints s) (loading s) (filter s)
            c (companyNotes s) (stats s)).

Definition setCompanyNotes (n : string) : M State unit :=
  modify_ui (fun s =>
    mkState (complaints s) (filteredComplaints s) (loading s) (filter s)
            (selectedComplaint s) n (stats s)).

Definition setStats (st : Stats) : M State unit :=
  modify_ui (fun s =>
    mkState (complaints s) (filteredComplaints s) (loading s) (filter s)
            (selectedComplaint s) (companyNotes s) st).

Definition fetchComplaints (o : Store.Outcome) : M State unit :=
  r <- query (Store.select_joined o) ;;
  match Store.error r with
  | None => setComplaints (Js.or_empty (Store.data r))
  | Some e => console_error "Error fetching complaints:" e
  end ;;
  setLoading false.

Definition filterComplaints : M State unit :=
  complaints <- read_ui complaints ;;
  filter <- read_ui filter ;;
  setFilteredComplaints
    (if filter === "pending" then
       List.filter (fun c : JoinedComplaint => status c === "pending") complaints
     else if filter === "in-progress" then
       List.filter (fun c : JoinedComplaint => status c === "in-progress") complaints
     else if filter === "completed" then
       List.filter (fun c : JoinedComplaint => status c === "completed") complaints
     else if filter === "all" then complaints
     else complaints).

Definition calculateStats : M State unit :=
  complaints <- read_ui complaints ;;
  setStats
    {| total := List.length complaints;
       pending :=
         List.length
           (List.filter (fun c : JoinedComplaint => status c === "pending")
                        complaints);
       inProgress :=
         List.length
           (List.filter (fun c : JoinedComplaint => status c === "in-progress")
                        complaints);
       completed :=
         List.length
           (List.filter (fun c : JoinedComplaint => status c === "completed")
                        complaints) |}.

(** [useEffect(() => { filterComplaints(); calculateStats(); },
    [complaints, filter])]. *)
Definition effect : M State unit :=
  filterComplaints ;; calculateStats.

(** [o] decides the update, [o'] the fetch that follows a served update. *)
Definition updateComplaintStatus (complaintId newStatus : string)
    (o o' : Store.Outcome) : M State unit :=
  t <- new_Date ;;
  r <- mutate (Store.update_complaint o complaintId
         {| Store.p_status := Some newStatus;
            Store.p_company_notes := None;
            Store.p_updated_at := Some t |}) ;;
  match Store.error r with
  | None => fetchComplaints o'
  | Some e =>
      console_error "Error updating status:" e ;;
      alert "Error updating status. Please try again."
  end.

Definition saveCompanyNotes (complaintId : string) (o o' : Store.Outcome)
  : M State unit :=
  notes <- read_ui companyNotes ;;
  t <- new_Date ;;
  r <- mutate (Store.update_complaint o complaintId
         {| Store.p_status := None;
            Store.p_company_notes := Some notes;
            Store.p_updated_at := Some t |}) ;;
  match Store.error r with
  | None =>
      alert "Notes saved successfully!" ;;
      setSelectedComplaint None ;;
      setCompanyNotes "" ;;
      fetchComplaints o'
  | Some e =>
      console_error "Error saving notes:" e ;;
      alert "Error saving notes. Please try again."
  end.

Definition openComplaintModal (c : JoinedComplaint) : M State unit :=
  setSelectedComplaint (Some c) ;;
  setCompanyNotes (Js.or_string (company_notes c) "").

(** What the component returns. *)
Inductive View :=
| LoadingView
| TableView (counts : Stats) (active : string) (rows : list JoinedComplaint).

Definition render (s : State) : View :=
  if loading s then LoadingView
  else TableView (stats s) (filter s) (filteredComplaints s).

(** What can happen to a mounted dashboard. *)
Inductive Event :=
| Refresh (o : Store.Outcome)
    (* mount, or a change notification on the subscription *)
| FilterButton (f : string)
| StatusSelect (complaintId newStatus : string) (o o' : Store.Outcome)
| ViewDetails (c : JoinedComplaint)
| NotesTyped (n : string)
| SaveNotes (complaintId : string) (o o' : Store.Outcome)
| CloseModal
| Remote (d : Store.Database)
    (* other sessions rewrite the tables *)
| Tick (t : Timestamp).

Definition handle (e : Event) : M State unit :=
  match e with
  | Refresh o => fetchComplaints o
  | FilterButton f => setFilter f
  | StatusSelect cid s o o' => updateComplaintStatus cid s o o'
  | ViewDetails c => openComplaintModal c
  | NotesTyped n => setCompanyNotes n
  | SaveNotes cid o o' => saveCompanyNotes cid o o'
  | CloseModal => setSelectedComplaint None
  | Remote d => fun w => (tt, mkWorld (ui w) d (console w) (alerts w) (clock w))
  | Tick t => fun w => (tt, mkWorld (ui w) (db w) (console w) (alerts w) t)
  end.

(** A handler runs, React re-renders, the effect runs. *)
Definition step (e : Event) : M State unit := handle e ;; effect.

Fixpoint run (es : list Event) : M State unit :=
  match es with
  | [] => ret tt
  | e :: es' => step e ;; run es'
  end.

(** The world in which the component mounts. *)
Definition mount (d : Store.Database) (t : Timestamp) : World State :=
  mkWorld initial d [] [] t.

Definition getStatusColor (status : string) : JsObject.Value :=
  JsObject.get_or
    [("pending", "#f59e0b"); ("in-progress", "#3b82f6");
     ("completed", "#10b981"); ("cancelled", "#ef4444")]
    status "#6b7280".

Definition getPriorityColor (priority : string) : JsObject.Value :=
  JsObject.get_or
    [("low", "#10b981"); ("medium", "#f59e0b"); ("high", "#ef4444")]
    priority "#6b7280".

End CompanyDashboard.

(** ** App.jsx *)

Module App.

Record State := mkState {
  session : option Session;
  userRole : option string;
  loading : bool
}.

Definition initial : State := mkState None None true.

Definition setSession (s : option Session) : M State unit :=
  modify_ui (fun st => mkState s (userRole st) (loading st)).

Definition setUserRole (r : option string) : M State unit :=
  modify_ui (fun st => mkState (session st) r (loading st)).

Definition setLoading (b : bool) : M State unit :=
  modify_ui (fun st => mkState (session st) (userRole st) b).

Definition fetchUserRole (userId : string) (o : Store.Outcome) : M State unit :=
  r <- query (Store.select_role_single userId o) ;;
  match Store.error r with
  | None =>
      setUserRole
        (Some (Js.or_string (Js.opt_chain (Store.data r) Store.role) "customer"))
  | Some e =>
      console_error "Error fetching user role:" e ;;
      setUserRole (Some "customer")
  end ;;
  setLoading false.

(** The callback of [getSession().then], in the case where the role
    lookup it starts is answered before anything else happens ([react]
    and [run_async] below take the callback and the answer apart) ... *)
Definition onInitialSession (s : option Session) (o : Store.Outcome)
  : M State unit :=
  setSession s ;;
  match s with
  | Some s' => fetchUserRole (session_user_id s') o
  | None => setLoading false
  end.

(** ... and the one of [onAuthStateChange], under the same condition. *)
Definition onAuthStateChange (s : option Session) (o : Store.Outcome)
  : M State unit :=
  setSession s ;;
  match s with
  | Some s' => fetchUserRole (session_user_id s') o
  | None => setUserRole None ;; setLoading false
  end.

Definition handleLogout : M State unit :=
  setSession None ;; setUserRole None.

(** What [App] returns. *)
Inductive Screen :=
| Spinner
| LoginScreen
| CompanyDashboardScreen (s : Session)
| CustomerDashboardScreen (s : Session).

Definition userRole_is (r : option string) (v : string) : bool :=
  match r with
  | Some x => x === v
  | None => false
  end.

Definition render (st : State) : Screen :=
  if loading st then Spinner
  else match session st with
       | None => LoginScreen
       | Some s =>
           if userRole_is (userRole st) "company"
           then CompanyDashboardScreen s
           else CustomerDashboardScreen s
       end.

Definition mount (d : Store.Database) (t : Timestamp) : World State :=
  mkWorld initial d [] [] t.

(** What can happen to the mounted [App]. *)
Inductive Event :=
| InitialSession (s : option Session) (o : Store.Outcome)
    (* [getSession()] resolves *)
| AuthStateChange (s : option Session) (o : Store.Outcome)
| LogoutClick.

Definition step (e : Event) : M State unit :=
  match e with
  | InitialSession s o => onInitialSession s o
  | AuthStateChange s o => onAuthStateChange s o
  | LogoutClick => handleLogout
  end.

Fixpoint run (es : list Event) : M State unit :=
  match es with
  | [] => ret tt
  | e :: es' => step e ;; run es'
  end.

(** [fetchUserRole] is not awaited by the two session callbacks: each
    returns as soon as the lookup is requested, [App] renders, and the
    rest of [fetchUserRole] runs when the store answers.  The events below
    keep the two apart. *)
Inductive Async :=
| SessionArrives (s : option Session)
    (* the [getSession().then] callback, up to the lookup request *)
| AuthStateChanges (s : option Session)
    (* the [onAuthStateChange] callback, up to the lookup request *)
| RoleLookupAnswers (userId : string) (o : Store.Outcome)
    (* the store answers a lookup requested earlier *)
| LogoutClicks.

Definition react (e : Async) : M State unit :=
  match e with
  | SessionArrives s =>
      setSession s ;;
      match s with
      | Some _ => ret tt
      | None => setLoading false
      end
  | AuthStateChanges s =>
      setSession s ;;
      match s with
      | Some _ => ret tt
      | None => setUserRole None ;; setLoading false
      end
  | RoleLookupAnswers userId o => fetchUserRole userId o
  | LogoutClicks => handleLogout
  end.

Fixpoint run_async (es : list Async) : M State unit :=
  match es with
  | [] => ret tt
  | e :: es' => react e ;; run_async es'
  end.

Fixpoint remove_first (x : string) (l : list string) : list string :=
  match l with
  | [] => []
  | y :: l' => if y === x then l' else y :: remove_first x l'
  end.

(** Every answer belongs to a lookup that was requested and not yet
    answered; [waiting] lists the users of the lookups under way. *)
Fixpoint well_timed (waiting : list string) (es : list Async) : bool :=
  match es with
  | [] => true
  | SessionArrives (Some s) :: es'
  | AuthStateChanges (Some s) :: es' =>
      well_timed (session_user_id s :: waiting) es'
  | RoleLookupAnswers userId _ :: es' =>
      existsb (fun y => y === userId) waiting
      && well_timed (remove_first userId waiting) es'
  | _ :: es' => well_timed waiting es'
  end.

End App.

(** ** Login (second component of App.jsx) *)

Module Login.

Record State := mkState {
  loading : bool;
  isSignUp : bool;
  email : string;
  password : string;
  name : string;
  phone : string;
  error : option string
}.

Definition initial : State := mkState false false "" "" "" "" None.

Definition setLoading (b : bool) : M State unit :=
  modify_ui (fun s =>
    mkState b (isSignUp s) (email s) (password s) (name s) (phone s) (error s)).

Definition setIsSignUp (b : bool) : M State unit :=
  modify_ui (fun s =>
    mkState (loading s) b (email s) (password s) (name s) (phone s) (error s)).

Definition setName (n : string) : M State unit :=
  modify_ui (fun s =>
    mkState (loading s) (isSignUp s) (email s) (password s) n (phone s) (error s)).

Definition setPhone (p : string) : M State unit :=
  modify_ui (fun s =>
    mkState (loading s) (isSignUp s) (email s) (password s) (name s) p (error s)).

Definition setError (e : option string) : M State unit :=
  modify_ui (fun s =>
    mkState (loading s) (isSignUp s) (email s) (password s) (name s) (phone s) e).

(** What [supabase.auth.signUp] resolves to:
    [{ data: { user }, error }], the user given by its id. *)
Record SignUpResult := mkSignUpResult {
  authData_user : option string;
  signUpError : option string
}.

Definition handleSignUp (auth : SignUpResult) (o : Store.Outcome)
  : M State unit :=
  setLoading true ;;
  setError None ;;
  match signUpError auth with
  | Some e => setError (Some e)
  | None =>
      ins <- match authData_user auth with
             | Some uid =>
                 em <- read_ui email ;;
                 nm <- read_ui name ;;
                 ph <- read_ui phone ;;
                 r <- mutate (Store.insert_user o
                        {| u_id := uid;
                           u_email := em;
                           u_name := nm;
                           u_phone := ph;
                           u_role := Some "customer" |}) ;;
                 ret (Store.error r)
             | None => ret None
             end ;;
      match ins with
      | Some e => setError (Some e)
      | None =>
          alert "Account created successfully! Please login." ;;
          setIsSignUp false ;;
          setName "" ;;
          setPhone ""
      end
  end ;;
  setLoading false.

End Login.

(** ** Sample tables, used to run the handlers on concrete inputs *)

Module Sample.

Definition c1 : Complaint :=
  mkComplaint "c-1" "alice" "EV-City" "motor" "Grinding noise" "low"
              "completed" None 100 150.
Definition c2 : Complaint :=
  mkComplaint "c-2" "bob" "EV-Trail" "brakes" "Rear brake squeals" "medium"
              "in-progress" (Some "pads ordered") 200 260.
Definition c3 : Complaint :=
  mkComplaint "c-3" "alice" "EV-Sport 2024" "display" "Blank screen" "high"
              "pending" None 300 300.
Definition c4 : Complaint :=
  mkComplaint "c-4" "bob" "EV-Trail" "other" "Lost key" "low"
              "cancelled" None 400 410.
Definition c5 : Complaint :=
  mkComplaint "c-5" "bob" "EV-Cargo" "motor" "Cuts out uphill" "high"
              "in-progress" None 450 460.

Definition alice_row : User :=
  mkUser "alice" "alice@example.com" "Alice" "555-0101" (Some "customer").
Definition bob_row : User :=
  mkUser "bob" "bob@example.com" "Bob" "555-0102" (Some "customer").
Definition staff_row : User :=
  mkUser "staff" "company@evbikes.com" "Desk" "555-0100" (Some "company").
Definition auditor_row : User :=
  mkUser "auditor" "audit@evbikes.com" "Audit" "555-0103" (Some "admin").

Definition tables : Store.Database :=
  Store.mkDatabase [c1; c2; c3; c4; c5] [alice_row; bob_row; staff_row; auditor_row].

Definition alice : Session := mkSession "alice" "alice@example.com".
Definition staff : Session := mkSession "staff" "company@evbikes.com".

(** The spec's scenario: the form as the customer filled it in. *)
Definition scenario_form : CustomerDashboard.FormData :=
  CustomerDashboard.mkFormData "EV-Sport 2024" "battery" "Won't hold charge" "high".

(** The same form with the description left empty. *)
Definition blank_description_form : CustomerDashboard.FormData :=
  CustomerDashboard.mkFormData "EV-Sport 2024" "battery" "" "high".

Definition customer_world (fd : CustomerDashboard.FormData)
  : World CustomerDashboard.State :=
  mkWorld (CustomerDashboard.mkState [] false true fd) tables [] [] 500.

Definition generated : Store.Generated := Store.mkGenerated "c-6" 500 500.

(** The company dashboard after its first fetch of [tables]. *)
Definition company_world : World CompanyDashboard.State :=
  exec (CompanyDashboard.run [CompanyDashboard.Refresh None])
       (CompanyDashboard.mount tables 500).

Definition bob : Session := mkSession "bob" "bob@example.com".

(** The company dashboard showing [tables], on a browser whose clock
    reads 150: behind every creation time but that of [c1]. *)
Definition slow_clock_world : World CompanyDashboard.State :=
  mkWorld (ui company_world) tables [] [] 150.

End Sample.

(** ** Vocabulary of the statements *)

(** [newer a b]: [a] may stand before [b] in a newest-first list. *)
Definition newer (a b : Complaint) : Prop := created_at b <= created_at a.

(** A customer's list holds only that customer's complaints. *)
Definition own_only (session : Session) (l : list Complaint) : Prop :=
  Forall (fun c => user_id c = session_user_id session) l.

(** The four values the status column takes in the components. *)
Definition known_statuses : list string :=
  ["pending"; "in-progress"; "completed"; "cancelled"].

Definition known_status (c : JoinedComplaint) : Prop :=
  In (status c) known_statuses.

(** The number of cancelled records.  The company dashboard keeps counts
    for the other three statuses only; this one is not part of its state. *)
Definition cancelled_count (l : list JoinedComplaint) : nat :=
  List.length (List.filter (fun c : JoinedComplaint => status c === "cancelled") l).

(** A record last updated no earlier than it was created. *)
Definition updated_after_created (c : Complaint) : Prop :=
  created_at c <= updated_at c.

(** The row a served [handleSubmit] adds for the form [fd]: the form's four
    values, the submitting session's user, status pending, and what the
    table generated. *)
Definition submitted_row (session : Session) (g : Store.Generated)
    (fd : CustomerDashboard.FormData) : Complaint :=
  {| id := Store.g_id g;
     user_id := session_user_id session;
     bicycle_model := CustomerDashboard.f_bicycle_model fd;
     issue_type := CustomerDashboard.f_issue_type fd;
     description := CustomerDashboard.f_description fd;
     priority := CustomerDashboard.f_priority fd;
     status := "pending";
     company_notes := None;
     created_at := Store.g_created_at g;
     updated_at := Store.g_updated_at g |}.

(** The filter values that narrow the company dashboard's table. *)
Definition narrowing_filters : list string :=
  ["pending"; "in-progress"; "completed"].

(** The rows the company dashboard's query returns when it is served. *)
Definition all_joined (d : Store.Database) : list JoinedComplaint :=
  map (Store.join_user (Store.users_table d))
      (Store.order_created_at_desc (Store.complaints_table d)).

(** The rows of [l] whose status is [s]. *)
Definition with_status (s : string) (l : list JoinedComplaint)
  : list JoinedComplaint :=
  List.filter (fun c : JoinedComplaint => status c === s) l.

(** [c] with nothing changed but its [updated_at]. *)
Definition touch (t : Timestamp) (c : Complaint) : Complaint :=
  {| id := id c;
     user_id := user_id c;
     bicycle_model := bicycle_model c;
     issue_type := issue_type c;
     description := description c;
     priority := priority c;
     status := status c;
     company_notes := company_notes c;
     created_at := created_at c;
     updated_at := t |}.

(** The counts of a record set, status by status. *)
Definition counts_of (l : list JoinedComplaint) : CompanyDashboard.Stats :=
  CompanyDashboard.mkStats
    (List.length l)
    (List.length (with_status "pending" l))
    (List.length (with_status "in-progress" l))
    (List.length (with_status "completed" l)).

(** Every event but a click on a filter button. *)
Definition keeps_filter (e : CompanyDashboard.Event) : bool :=
  match e with
  | CompanyDashboard.FilterButton _ => false
  | _ => true
  end.

(** The columns of a complaint that no handler of the company dashboard
    writes. *)
Definition fixed_columns (c : Complaint)
  : string * string * string * string * string * string * Timestamp :=
  (id c, user_id c, bicycle_model c, issue_type c, description c, priority c,
   created_at c).

(** The events of the company dashboard that come from the dashboard
    itself, not from other sessions. *)
Definition company_local (e : CompanyDashboard.Event) : bool :=
  match e with
  | CompanyDashboard.Remote _ => false
  | _ => true
  end.

(** The same for the customer dashboard. *)
Definition customer_local (e : CustomerDashboard.Event) : bool :=
  match e with
  | CustomerDashboard.Remote _ => false
  | _ => true
  end.


(** The row of a sign-up. *)
Definition signed_up_row (uid : string) (s : Login.State) : User :=
  mkUser uid (Login.email s) (Login.name s) (Login.phone s) (Some "customer").

(** [c] after a status change to [s] stamped [t]. *)
Definition restamped_status (s : string) (t : Timestamp) (c : Complaint)
  : Complaint :=
  {| id := id c;
     user_id := user_id c;
     bicycle_model := bicycle_model c;
     issue_type := issue_type c;
     description := description c;
     priority := priority c;
     status := s;
     company_notes := company_notes c;
     created_at := created_at c;
     updated_at := t |}.

(** [c] after a notes change to [n] stamped [t]. *)
Definition restamped_notes (n : string) (t : Timestamp) (c : Complaint)
  : Complaint :=
  {| id := id c;
     user_id := user_id c;
     bicycle_model := bicycle_model c;
     issue_type := issue_type c;
     description := description c;
     priority := priority c;
     status := status c;
     company_notes := Some n;
     created_at := created_at c;
     updated_at := t |}.

(** Every column of a complaint but [updated_at]. *)
Definition content_columns (c : Complaint)
  : (string * string * string * string * string * string * Timestamp)
    * string * option string :=
  (fixed_columns c, status c, company_notes c).

(** * Properties *)

(** ** The monad *)

Lemma exec_bind {S A B : Type} (m : M S A) (k : A -> M S B) (w : World S) :
  exec (bind m k) w = exec (k (fst (m w))) (snd (m w)).
Proof.
  unfold exec, bind. destruct (m w) as [a w']. reflexivity.
Qed.

Lemma exec_seq {S B : Type} (m : M S unit) (k : M S B) (w : World S) :
  exec (m ;; k) w = exec k (exec m w).
Proof.
  rewrite exec_bind. reflexivity.
Qed.

Lemma exec_ret {S A : Type} (a : A) (w : World S) : exec (ret a) w = w.
Proof. reflexivity. Qed.

(** Unfolds the monad's plumbing so that a handler reduces to the world it
    leaves. *)
Ltac plumbing :=
  unfold exec, bind, ret, modify_ui, read_ui, console_error, alert,
    new_Date, query, mutate in *.

(** ** JavaScript equality *)

Lemma strict_eq_true (a b : string) : a === b = true <-> a = b.
Proof. apply String.eqb_eq. Qed.

Lemma strict_eq_false (a b : string) : a === b = false <-> a <> b.
Proof. apply String.eqb_neq. Qed.

Lemma strict_eq_refl (a : string) : a === a = true.
Proof. apply String.eqb_refl. Qed.

(** ** The store's ordering and selection *)

Section StoreOrdering.

Import Store.

Lemma insert_desc_perm (c : Complaint) (l : list Complaint) :
  Permutation (insert_desc c l) (c :: l).
Proof.
  induction l as [|d l IH]; cbn.
  - reflexivity.
  - destruct (created_at d <=? created_at c).
    + reflexivity.
    + rewrite IH. apply perm_swap.
Qed.

Lemma order_created_at_desc_perm (l : list Complaint) :
  Permutation (order_created_at_desc l) l.
Proof.
  induction l as [|c l IH]; cbn.
  - reflexivity.
  - rewrite insert_desc_perm. now apply perm_skip.
Qed.

Lemma order_created_at_desc_In (c : Complaint) (l : list Complaint) :
  In c (order_created_at_desc l) <-> In c l.
Proof.
  split; apply Permutation_in;
    [| symmetry]; apply order_created_at_desc_perm.
Qed.

Lemma insert_desc_sorted (c : Complaint) (l : list Complaint) :
  StronglySorted newer l -> StronglySorted newer (insert_desc c l).
Proof.
  induction 1 as [|d l Hs IH Hd]; cbn.
  - repeat constructor.
  - destruct (Z.leb_spec (created_at d) (created_at c)) as [Hle|Hlt].
    + constructor; [now constructor|].
      constructor; [exact Hle|].
      rewrite Forall_forall in *. intros x Hx.
      unfold newer in *. specialize (Hd x Hx). lia.
    + constructor; [exact IH|].
      rewrite Forall_forall in *. intros x Hx.
      apply (Permutation_in _ (insert_desc_perm c l)) in Hx.
      destruct Hx as [<-|Hx]; [unfold newer; lia | now apply Hd].
Qed.

Lemma order_created_at_desc_sorted (l : list Complaint) :
  StronglySorted newer (order_created_at_desc l).
Proof.
  induction l as [|c l IH]; cbn.
  - constructor.
  - now apply insert_desc_sorted.
Qed.

(** A row strictly newer than all the others comes first, and the rest
    keeps its order. *)
Lemma order_created_at_desc_snoc (x : Complaint) (l : list Complaint) :
  (forall c, In c l -> created_at c < created_at x) ->
  order_created_at_desc (l ++ [x]) = x :: order_created_at_desc l.
Proof.
  unfold order_created_at_desc.
  induction l as [|a l IH]; intros Hnew; cbn [app fold_right].
  - reflexivity.
  - rewrite IH by (intros c Hc; apply Hnew; now right).
    cbn. destruct (Z.leb_spec (created_at x) (created_at a)) as [Hle|_].
    + specialize (Hnew a (or_introl eq_refl)). lia.
    + reflexivity.
Qed.

(** The same fact for any newest-first arrangement of the rows, whatever
    it does with equal creation times. *)
Lemma newest_row_heads_any_descending_order
    (x : Complaint) (l sorted : list Complaint) :
  Permutation sorted (l ++ [x]) ->
  StronglySorted newer sorted ->
  (forall c, In c l -> created_at c < created_at x) ->
  hd_error sorted = Some x.
Proof.
  intros Hp Hs Hnew.
  destruct sorted as [|h t].
  - apply Permutation_nil in Hp. now destruct l.
  - cbn. f_equal.
    assert (Hh : In h (l ++ [x])) by (apply (Permutation_in _ Hp); now left).
    assert (Hx : In x (h :: t)).
    { apply (Permutation_in _ (Permutation_sym Hp)).
      apply in_or_app. right. now left. }
    apply in_app_or in Hh. destruct Hh as [Hh|[Hh|[]]]; [|exact (eq_sym Hh)].
    destruct Hx as [Hx|Hx]; [exact Hx|].
    apply StronglySorted_inv in Hs. destruct Hs as [_ Hall].
    rewrite Forall_forall in Hall. specialize (Hall x Hx).
    specialize (Hnew h Hh). unfold newer in Hall. lia.
Qed.

Lemma eq_user_id_owner (uid : string) (l : list Complaint) (c : Complaint) :
  In c (eq_user_id uid l) <-> In c l /\ user_id c = uid.
Proof.
  unfold eq_user_id. rewrite filter_In, strict_eq_true. reflexivity.
Qed.

Lemma eq_user_id_snoc_own (uid : string) (l : list Complaint) (c : Complaint) :
  user_id c = uid -> eq_user_id uid (l ++ [c]) = eq_user_id uid l ++ [c].
Proof.
  intros Hc. unfold eq_user_id. rewrite filter_app. cbn.
  rewrite Hc, strict_eq_refl. reflexivity.
Qed.

Lemma select_own_owner (uid : string) (o : Outcome) (d : Database) :
  Forall (fun c => user_id c = uid) (Js.or_empty (data (select_own uid o d))).
Proof.
  destruct o as [e|]; cbn; [constructor|].
  rewrite Forall_forall. intros c Hc.
  apply order_created_at_desc_In, eq_user_id_owner in Hc. tauto.
Qed.

End StoreOrdering.


(** ** The customer dashboard *)

Section CustomerFacts.

Import CustomerDashboard.

Variable session : Session.

(** After any event the list is the old one or a fresh answer of the
    store to the dashboard's own query. *)
Lemma customer_step_complaints (e : Event) (w : World State) :
  complaints (ui (exec (step session e) w)) = complaints (ui w)
  \/ exists d o,
       complaints (ui (exec (step session e) w))
       = Js.or_empty (Store.data (Store.select_own (session_user_id session) o d)).
Proof.
  destruct e as [o|o g o'|field value| |d|t]; cbn [step].
  - unfold fetchComplaints. plumbing.
    destruct o as [err|]; cbn; [now left|].
    right. exists (db w), None. reflexivity.
  - unfold onSubmit, handleSubmit, fetchComplaints. plumbing. cbn.
    destruct (form_valid (formData (ui w))); [|now left].
    destruct o as [err|]; cbn; [now left|].
    destruct o' as [err|]; cbn; [now left|].
    right. eexists (Store.mkDatabase _ (Store.users_table (db w))), None.
    cbn. reflexivity.
  - left. reflexivity.
  - left. reflexivity.
  - left. reflexivity.
  - left. reflexivity.
Qed.

Lemma customer_step_own_only (e : Event) (w : World State) :
  own_only session (complaints (ui w)) ->
  own_only session (complaints (ui (exec (step session e) w))).
Proof.
  intros Hw.
  destruct (customer_step_complaints e w) as [->|(d & o & ->)].
  - exact Hw.
  - apply select_own_owner.
Qed.

Lemma customer_run_own_only (es : list Event) (w : World State) :
  own_only session (complaints (ui w)) ->
  own_only session (complaints (ui (exec (run session es) w))).
Proof.
  revert w. induction es as [|e es IH]; intros w Hw; cbn [run].
  - exact Hw.
  - rewrite exec_seq. apply IH, customer_step_own_only, Hw.
Qed.

(** While the session prop stays the same, whatever happens to a mounted
    customer dashboard (refreshes that are served or fail, submissions,
    typing, changes made to the tables by other sessions), every complaint
    in its list, and so every card it renders, is owned by the viewer. *)
Theorem customer_view_shows_only_own_complaints :
  forall (d : Store.Database) (t : Timestamp) (es : list Event),
    own_only session
      (complaints (ui (exec (run session es) (mount d t))))
    /\ match render (ui (exec (run session es) (mount d t))) with
       | ListView cards =>
           Forall (fun c => user_id c = session_user_id session) cards
       | LoadingView => True
       end.
Proof.
  intros d t es.
  assert (H : own_only session
                (complaints (ui (exec (run session es) (mount d t))))).
  { apply customer_run_own_only. constructor. }
  split; [exact H|].
  unfold render.
  destruct (loading _ && _); [exact I | exact H].
Qed.

End CustomerFacts.

(** A served fetch for the session the component holds always leaves the
    viewer's own complaints only, whatever was listed before. *)
Lemma served_fetch_lists_own_only (session : Session)
    (w : World CustomerDashboard.State) :
  own_only session
    (CustomerDashboard.complaints
       (ui (exec (CustomerDashboard.fetchComplaints session None) w))).
Proof.
  apply (select_own_owner (session_user_id session) None (db w)).
Qed.

(** C3, failing input: alice's dashboard is mounted and lists her two
    complaints; [App] then receives bob's session and, holding alice's role
    customer, keeps rendering the same dashboard with the new session as
    its prop; the fetch for bob fails.  The dashboard now has bob as its
    viewer and still renders alice's two complaints. *)
Theorem stale_list_shown_to_next_user :
  App.well_timed []
    [App.SessionArrives None; App.AuthStateChanges (Some Sample.alice);
     App.RoleLookupAnswers "alice" None;
     App.AuthStateChanges (Some Sample.bob)] = true
  /\ App.render
       (ui (exec (App.run_async
                    [App.SessionArrives None;
                     App.AuthStateChanges (Some Sample.alice);
                     App.RoleLookupAnswers "alice" None])
                 (App.mount Sample.tables 500)))
     = App.CustomerDashboardScreen Sample.alice
  /\ App.render
       (ui (exec (App.run_async
                    [App.SessionArrives None;
                     App.AuthStateChanges (Some Sample.alice);
                     App.RoleLookupAnswers "alice" None;
                     App.AuthStateChanges (Some Sample.bob)])
                 (App.mount Sample.tables 500)))
     = App.CustomerDashboardScreen Sample.bob
  /\ fst (CustomerDashboard.run_mounted Sample.alice
            [CustomerDashboard.Local (CustomerDashboard.Refresh None);
             CustomerDashboard.SessionProp Sample.bob (Some "Failed to fetch")]
            (CustomerDashboard.mount Sample.tables 500))
     = Sample.bob
  /\ CustomerDashboard.render
       (ui (exec (CustomerDashboard.run_mounted Sample.alice
                    [CustomerDashboard.Local (CustomerDashboard.Refresh None);
                     CustomerDashboard.SessionProp Sample.bob
                       (Some "Failed to fetch")])
                 (CustomerDashboard.mount Sample.tables 500)))
     = CustomerDashboard.ListView [Sample.c3; Sample.c1]
  /\ map user_id [Sample.c3; Sample.c1] = ["alice"; "alice"]
  /\ session_user_id Sample.bob = "bob".
Proof.
  repeat (split; [reflexivity|]). reflexivity.
Qed.

Example customer_view_sample :
  CustomerDashboard.complaints
    (ui (exec (CustomerDashboard.run Sample.alice [CustomerDashboard.Refresh None])
              (CustomerDashboard.mount Sample.tables 500)))
  = [Sample.c3; Sample.c1].
Proof. reflexivity. Qed.

Section SubmissionFacts.

Import CustomerDashboard.

Variable session : Session.

(** A served insert adds exactly the submitted row, whatever the form holds. *)
Lemma handleSubmit_served_table (w : World State) (g : Store.Generated)
    (o' : Store.Outcome) :
  Store.complaints_table (db (exec (handleSubmit session None g o') w))
  = Store.complaints_table (db w) ++ [submitted_row session g (formData (ui w))].
Proof.
  unfold handleSubmit, fetchComplaints. plumbing. cbn.
  destruct o' as [err|]; reflexivity.
Qed.

(** A refused insert changes no table and reports the one generic error. *)
Lemma handleSubmit_refused (w : World State) (g : Store.Generated)
    (e : string) (o' : Store.Outcome) :
  db (exec (handleSubmit session (Some e) g o') w) = db w
  /\ alerts (exec (handleSubmit session (Some e) g o') w)
     = "Error submitting request. Please try again." :: alerts w
  /\ console (exec (handleSubmit session (Some e) g o') w)
     = mkLog "Error submitting complaint:" e :: console w
  /\ formData (ui (exec (handleSubmit session (Some e) g o') w))
     = formData (ui w).
Proof.
  unfold handleSubmit. plumbing. cbn. auto.
Qed.

(** C2 (amended): the submit handler does not look at the description.
    With an empty description the form's [required] attribute keeps the
    handler from running, so the world stays as it is; the handler itself,
    when it runs on such a form, sends the insert like any other: a served
    insert adds the row with its empty description, and a refused one
    changes no table and reports the generic submission error. *)
Theorem empty_description_stopped_by_form_only :
  forall (w : World State) (g : Store.Generated) (o o' : Store.Outcome),
    f_description (formData (ui w)) = "" ->
    exec (onSubmit session o g o') w = w
    /\ Store.complaints_table (db (exec (handleSubmit session None g o') w))
       = Store.complaints_table (db w)
         ++ [submitted_row session g (formData (ui w))]
    /\ description (submitted_row session g (formData (ui w))) = ""
    /\ forall e : string,
         db (exec (handleSubmit session (Some e) g o') w) = db w
         /\ alerts (exec (handleSubmit session (Some e) g o') w)
            = "Error submitting request. Please try again." :: alerts w
         /\ console (exec (handleSubmit session (Some e) g o') w)
            = mkLog "Error submitting complaint:" e :: console w.
Proof.
  intros w g o o' Hempty.
  split; [|split; [|split]].
  - unfold onSubmit, form_valid, required. plumbing. cbn.
    rewrite Hempty. cbn. rewrite !andb_false_r. reflexivity.
  - apply handleSubmit_served_table.
  - exact Hempty.
  - intros e.
    destruct (handleSubmit_refused w g e o') as (Hdb & Halert & Hlog & _).
    auto.
Qed.

(** C8: a served submission adds a row with status pending, owned by the
    submitting user and carrying the form's values; when that row is newer
    than the customer's earlier ones, it is the first row of the store's
    newest-first answer for that customer, and of the dashboard's list once
    the refresh that follows is served. *)
Theorem submitted_complaint_pending_owned_first :
  forall (w : World State) (g : Store.Generated),
    (forall c, In c (Store.complaints_table (db w)) ->
               user_id c = session_user_id session ->
               created_at c < Store.g_created_at g) ->
    Store.complaints_table (db (exec (handleSubmit session None g None) w))
    = Store.complaints_table (db w) ++ [submitted_row session g (formData (ui w))]
    /\ status (submitted_row session g (formData (ui w))) = "pending"
    /\ user_id (submitted_row session g (formData (ui w))) = session_user_id session
    /\ complaints (ui (exec (handleSubmit session None g None) w))
       = submitted_row session g (formData (ui w))
         :: Store.order_created_at_desc
              (Store.eq_user_id (session_user_id session)
                                (Store.complaints_table (db w)))
    /\ forall o' : Store.Outcome,
         Store.data (Store.select_own (session_user_id session) None
                       (db (exec (handleSubmit session None g o') w)))
         = Some (submitted_row session g (formData (ui w))
                 :: Store.order_created_at_desc
                      (Store.eq_user_id (session_user_id session)
                                        (Store.complaints_table (db w)))).
Proof.
  intros w g Hnew.
  assert (Hsel :
    Store.order_created_at_desc
      (Store.eq_user_id (session_user_id session)
         (Store.complaints_table (db w)
          ++ [submitted_row session g (formData (ui w))]))
    = submitted_row session g (formData (ui w))
      :: Store.order_created_at_desc
           (Store.eq_user_id (session_user_id session)
                             (Store.complaints_table (db w)))).
  { rewrite eq_user_id_snoc_own by reflexivity.
    apply order_created_at_desc_snoc.
    intros c Hc. apply eq_user_id_owner in Hc. destruct Hc as [Hin Hown].
    exact (Hnew c Hin Hown). }
  split; [apply handleSubmit_served_table|].
  split; [reflexivity|]. split; [reflexivity|]. split.
  - rewrite <- Hsel. unfold handleSubmit, fetchComplaints. plumbing. reflexivity.
  - intros o'. cbn [Store.select_own Store.served Store.data].
    rewrite handleSubmit_served_table, Hsel. reflexivity.
Qed.

End SubmissionFacts.

(** C2, refuted as stated: the submit handler run on a form whose
    description is empty, with a store that serves the insert, reports
    success and leaves one more record in the table. *)
Lemma empty_description_submission_creates_record :
  Store.complaints_table
    (db (exec (CustomerDashboard.handleSubmit Sample.alice None Sample.generated None)
              (Sample.customer_world Sample.blank_description_form)))
  = Store.complaints_table Sample.tables
    ++ [mkComplaint "c-6" "alice" "EV-Sport 2024" "battery" "" "high"
                    "pending" None 500 500]
  /\ alerts
       (exec (CustomerDashboard.handleSubmit Sample.alice None Sample.generated None)
             (Sample.customer_world Sample.blank_description_form))
     = ["Service request submitted successfully!"]
  /\ console
       (exec (CustomerDashboard.handleSubmit Sample.alice None Sample.generated None)
             (Sample.customer_world Sample.blank_description_form))
     = [].
Proof. repeat split. Qed.

Lemma empty_description_stopped_by_form_only_witness :
  exec (CustomerDashboard.onSubmit Sample.alice None Sample.generated None)
       (Sample.customer_world Sample.blank_description_form)
  = Sample.customer_world Sample.blank_description_form
  /\ Store.complaints_table
       (db (exec (CustomerDashboard.handleSubmit Sample.alice None Sample.generated None)
                 (Sample.customer_world Sample.blank_description_form)))
     = Store.complaints_table Sample.tables
       ++ [submitted_row Sample.alice Sample.generated Sample.blank_description_form].
Proof.
  destruct (empty_description_stopped_by_form_only Sample.alice
              (Sample.customer_world Sample.blank_description_form)
              Sample.generated None None eq_refl) as (Hform & Htable & _).
  split; [exact Hform | exact Htable].
Defined.

Lemma submitted_complaint_pending_owned_first_witness :
  hd_error
    (CustomerDashboard.complaints
       (ui (exec (CustomerDashboard.handleSubmit Sample.alice None Sample.generated None)
                 (Sample.customer_world Sample.scenario_form))))
  = Some (mkComplaint "c-6" "alice" "EV-Sport 2024" "battery"
                      "Won't hold charge" "high" "pending" None 500 500).
Proof.
  assert (Hnew : forall c,
             In c (Store.complaints_table
                     (db (Sample.customer_world Sample.scenario_form))) ->
             user_id c = session_user_id Sample.alice ->
             created_at c < Store.g_created_at Sample.generated).
  { cbn. intros c [<-|[<-|[<-|[<-|[<-|[]]]]]] Hown; cbn in *;
      solve [lia | discriminate]. }
  destruct (submitted_complaint_pending_owned_first Sample.alice
              (Sample.customer_world Sample.scenario_form)
              Sample.generated Hnew) as (_ & _ & _ & Hlist & _).
  rewrite Hlist. reflexivity.
Defined.

(** ** The company dashboard: table and counts *)

Section CompanyViewFacts.

Import CompanyDashboard.

Lemma effect_ui (w : World State) :
  ui (exec effect w)
  = mkState (complaints (ui w))
      (if filter (ui w) === "pending" then with_status "pending" (complaints (ui w))
       else if filter (ui w) === "in-progress"
            then with_status "in-progress" (complaints (ui w))
       else if filter (ui w) === "completed"
            then with_status "completed" (complaints (ui w))
       else complaints (ui w))
      (loading (ui w)) (filter (ui w)) (selectedComplaint (ui w))
      (companyNotes (ui w))
      (mkStats (List.length (complaints (ui w)))
               (List.length (with_status "pending" (complaints (ui w))))
               (List.length (with_status "in-progress" (complaints (ui w))))
               (List.length (with_status "completed" (complaints (ui w))))).
Proof.
  unfold effect, filterComplaints, calculateStats. plumbing. cbn.
  destruct (filter (ui w) === "pending"); [reflexivity|].
  destruct (filter (ui w) === "in-progress"); [reflexivity|].
  destruct (filter (ui w) === "completed"); [reflexivity|].
  destruct (filter (ui w) === "all"); reflexivity.
Qed.

(** The effect touches nothing but the component state. *)
Lemma effect_world (w : World State) :
  db (exec effect w) = db w
  /\ console (exec effect w) = console w
  /\ alerts (exec effect w) = alerts w
  /\ clock (exec effect w) = clock w.
Proof.
  unfold effect, filterComplaints, calculateStats. plumbing. cbn. auto.
Qed.

(** Running the effect again, with the same list and filter, changes nothing. *)
Lemma effect_idempotent (w : World State) :
  ui (exec effect (exec effect w)) = ui (exec effect w).
Proof.
  rewrite (effect_ui (exec effect w)), !effect_ui. reflexivity.
Qed.

Lemma filter_button_ui (f : string) (w : World State) :
  ui (exec (step (FilterButton f)) w)
  = ui (exec effect
          (mkWorld (mkState (complaints (ui w)) (filteredComplaints (ui w))
                            (loading (ui w)) f (selectedComplaint (ui w))
                            (companyNotes (ui w)) (stats (ui w)))
                   (db w) (console w) (alerts w) (clock w))).
Proof. reflexivity. Qed.

(** Each record of known status is counted under exactly one status. *)
Lemma status_counts_partition (l : list JoinedComplaint) :
  Forall known_status l ->
  (List.length (with_status "pending" l)
   + List.length (with_status "in-progress" l)
   + List.length (with_status "completed" l)
   + cancelled_count l
   = List.length l)%nat.
Proof.
  unfold cancelled_count, with_status.
  induction 1 as [|c l Hc _ IH]; [reflexivity|].
  unfold known_status, known_statuses in Hc. cbn [In] in Hc.
  cbn [List.filter].
  destruct Hc as [<-|[<-|[<-|[<-|[]]]]]; cbn; lia.
Qed.

(** C6: after a filter button is handled, the table holds exactly the
    records whose status is the chosen filter when that filter is pending,
    in-progress or completed, and the whole record set for all and for
    every other value. *)
Theorem filter_narrows_by_status_or_shows_all :
  forall (w : World State) (f : string),
    (In f narrowing_filters ->
     filteredComplaints (ui (exec (step (FilterButton f)) w))
     = List.filter (fun c : JoinedComplaint => status c === f) (complaints (ui w)))
    /\ (~ In f narrowing_filters ->
        filteredComplaints (ui (exec (step (FilterButton f)) w))
        = complaints (ui w)).
Proof.
  intros w f. rewrite filter_button_ui, effect_ui. cbn.
  unfold narrowing_filters, with_status. split.
  - intros [<-|[<-|[<-|[]]]]; reflexivity.
  - intros Hf. unfold Js.strict_eq.
    destruct (String.eqb_spec f "pending") as [->|_];
      [exfalso; apply Hf; cbn; auto|].
    destruct (String.eqb_spec f "in-progress") as [->|_];
      [exfalso; apply Hf; cbn; auto|].
    destruct (String.eqb_spec f "completed") as [->|_];
      [exfalso; apply Hf; cbn; auto|].
    reflexivity.
Qed.

(** C1: for a record set whose statuses are among pending, in-progress,
    completed and cancelled, the three counts of the dashboard plus the
    number of cancelled records make up the total; the counts are those of
    the whole record set and are the same under every filter. *)
Theorem counts_add_up_and_ignore_filter :
  forall (w : World State) (f f' : string),
    Forall known_status (complaints (ui w)) ->
    (pending (stats (ui (exec (step (FilterButton f)) w)))
     + inProgress (stats (ui (exec (step (FilterButton f)) w)))
     + completed (stats (ui (exec (step (FilterButton f)) w)))
     + cancelled_count (complaints (ui w))
     = total (stats (ui (exec (step (FilterButton f)) w))))%nat
    /\ total (stats (ui (exec (step (FilterButton f)) w)))
       = List.length (complaints (ui w))
    /\ stats (ui (exec (step (FilterButton f)) w))
       = stats (ui (exec (step (FilterButton f')) w)).
Proof.
  intros w f f' Hknown.
  rewrite !filter_button_ui, !effect_ui. cbn.
  split; [|split; reflexivity].
  apply status_counts_partition, Hknown.
Qed.

Lemma handle_keeps_filter (e : Event) (w : World State) :
  keeps_filter e = true ->
  filter (ui (exec (handle e) w)) = filter (ui w).
Proof.
  destruct e as [o|f|cid s o o'|c|n|cid o o'| |d|t]; cbn [keeps_filter handle];
    intros Hk; try discriminate Hk; try reflexivity.
  - unfold fetchComplaints. plumbing. cbn. destruct o; reflexivity.
  - unfold updateComplaintStatus, fetchComplaints. plumbing. cbn.
    destruct o; [reflexivity|]. destruct o'; reflexivity.
  - unfold saveCompanyNotes, fetchComplaints. plumbing. cbn.
    destruct o; [reflexivity|]. destruct o'; reflexivity.
Qed.

(** While the filter is pending, each step leaves the table equal to the
    pending rows of the list and the counts equal to those of the list. *)
Lemma pending_view_step (e : Event) (w : World State) :
  keeps_filter e = true ->
  filter (ui w) = "pending" ->
  filter (ui (exec (step e) w)) = "pending"
  /\ filteredComplaints (ui (exec (step e) w))
     = with_status "pending" (complaints (ui (exec (step e) w)))
  /\ stats (ui (exec (step e) w))
     = counts_of (complaints (ui (exec (step e) w))).
Proof.
  intros Hk Hf. unfold step. rewrite exec_seq, effect_ui.
  rewrite (handle_keeps_filter e w Hk), Hf. cbn. auto.
Qed.

Lemma pending_view_run (es : list Event) (w : World State) :
  forallb keeps_filter es = true ->
  filter (ui w) = "pending"
  /\ filteredComplaints (ui w) = with_status "pending" (complaints (ui w))
  /\ stats (ui w) = counts_of (complaints (ui w)) ->
  filter (ui (exec (run es) w)) = "pending"
  /\ filteredComplaints (ui (exec (run es) w))
     = with_status "pending" (complaints (ui (exec (run es) w)))
  /\ stats (ui (exec (run es) w))
     = counts_of (complaints (ui (exec (run es) w))).
Proof.
  revert w. induction es as [|e es IH]; intros w Hes Hw; cbn [run].
  - exact Hw.
  - cbn [forallb] in Hes. apply andb_true_iff in Hes. destruct Hes as [He Hes].
    rewrite exec_seq. apply IH; [exact Hes|].
    apply pending_view_step; [exact He | apply Hw].
Qed.

(** C10: the filter starts as pending, and until a filter button is
    clicked it stays pending: whatever else happens, the table holds
    exactly the pending records of the dashboard's list while the counts
    are those of the whole list.  In particular, after the first served
    fetch the list is the whole fetched set, the table its pending records
    and the counts those of the whole set. *)
Theorem company_dashboard_opens_on_pending :
  forall (d : Store.Database) (t : Timestamp) (es : list Event),
    forallb keeps_filter es = true ->
    filter initial = "pending"
    /\ filter (ui (exec (run es) (mount d t))) = "pending"
    /\ filteredComplaints (ui (exec (run es) (mount d t)))
       = with_status "pending" (complaints (ui (exec (run es) (mount d t))))
    /\ stats (ui (exec (run es) (mount d t)))
       = counts_of (complaints (ui (exec (run es) (mount d t))))
    /\ complaints (ui (exec (run [Refresh None]) (mount d t))) = all_joined d
    /\ render (ui (exec (run [Refresh None]) (mount d t)))
       = TableView (counts_of (all_joined d)) "pending"
                   (with_status "pending" (all_joined d)).
Proof.
  intros d t es Hes. split; [reflexivity|].
  destruct (pending_view_run es (mount d t) Hes) as (Hf & Ht & Hs).
  { cbn. auto. }
  split; [exact Hf|]. split; [exact Ht|]. split; [exact Hs|].
  cbn [run]. rewrite exec_seq, exec_ret. unfold step.
  rewrite exec_seq, effect_ui. split; reflexivity.
Qed.

End CompanyViewFacts.

Example company_view_sample :
  CompanyDashboard.render (ui Sample.company_world)
  = CompanyDashboard.TableView
      (CompanyDashboard.mkStats 5 1 2 1) "pending"
      [Store.join_user (Store.users_table Sample.tables) Sample.c3].
Proof. reflexivity. Qed.

Lemma company_dashboard_opens_on_pending_witness :
  CompanyDashboard.filteredComplaints
    (ui (exec (CompanyDashboard.run
                 [CompanyDashboard.Refresh None;
                  CompanyDashboard.StatusSelect "c-2" "pending" None None])
              (CompanyDashboard.mount Sample.tables 500)))
  = with_status "pending"
      (CompanyDashboard.complaints
         (ui (exec (CompanyDashboard.run
                      [CompanyDashboard.Refresh None;
                       CompanyDashboard.StatusSelect "c-2" "pending" None None])
                   (CompanyDashboard.mount Sample.tables 500)))).
Proof.
  apply (company_dashboard_opens_on_pending Sample.tables 500
           [CompanyDashboard.Refresh None;
            CompanyDashboard.StatusSelect "c-2" "pending" None None]).
  reflexivity.
Defined.

(** With a cancelled record present the three displayed counts alone fall
    short of the total. *)
Example displayed_counts_fall_short :
  CompanyDashboard.stats (ui Sample.company_world)
  = CompanyDashboard.mkStats 5 1 2 1
  /\ cancelled_count (CompanyDashboard.complaints (ui Sample.company_world)) = 1%nat.
Proof. split; reflexivity. Qed.

Lemma sample_statuses_known :
  Forall known_status (CompanyDashboard.complaints (ui Sample.company_world)).
Proof.
  unfold known_status, known_statuses. cbv.
  repeat (apply Forall_cons; [auto 10|]). apply Forall_nil.
Qed.

Lemma counts_add_up_and_ignore_filter_witness :
  CompanyDashboard.stats
    (ui (exec (CompanyDashboard.step (CompanyDashboard.FilterButton "in-progress"))
              Sample.company_world))
  = CompanyDashboard.stats
      (ui (exec (CompanyDashboard.step (CompanyDashboard.FilterButton "all"))
                Sample.company_world)).
Proof.
  exact (proj2 (proj2 (counts_add_up_and_ignore_filter Sample.company_world
                         "in-progress" "all" sample_statuses_known))).
Defined.

Lemma filter_narrows_by_status_or_shows_all_witness :
  CompanyDashboard.filteredComplaints
    (ui (exec (CompanyDashboard.step (CompanyDashboard.FilterButton "in-progress"))
              Sample.company_world))
  = [Store.join_user (Store.users_table Sample.tables) Sample.c5;
     Store.join_user (Store.users_table Sample.tables) Sample.c2]
  /\ CompanyDashboard.filteredComplaints
       (ui (exec (CompanyDashboard.step (CompanyDashboard.FilterButton "cancelled"))
                 Sample.company_world))
     = CompanyDashboard.complaints (ui Sample.company_world).
Proof.
  split.
  - rewrite (proj1 (filter_narrows_by_status_or_shows_all
                      Sample.company_world "in-progress")).
    + reflexivity.
    + cbn. auto.
  - apply (proj2 (filter_narrows_by_status_or_shows_all
                    Sample.company_world "cancelled")).
    cbn. intros [H|[H|[H|[]]]]; discriminate H.
Defined.

(** ** The company dashboard: mutations *)

Section CompanyMutationFacts.

Import CompanyDashboard.

Lemma updateComplaintStatus_served_table
    (w : World State) (cid s : string) (o' : Store.Outcome) :
  Store.complaints_table (db (exec (updateComplaintStatus cid s None o') w))
  = map (fun c =>
           if id c === cid
           then Store.apply_patch (Store.mkPatch (Some s) None (Some (clock w))) c
           else c)
        (Store.complaints_table (db w)).
Proof.
  unfold updateComplaintStatus, fetchComplaints. plumbing. cbn.
  destruct o' as [err|]; reflexivity.
Qed.

Lemma saveCompanyNotes_served_table
    (w : World State) (cid : string) (o' : Store.Outcome) :
  Store.complaints_table (db (exec (saveCompanyNotes cid None o') w))
  = map (fun c =>
           if id c === cid
           then Store.apply_patch
                  (Store.mkPatch None (Some (companyNotes (ui w))) (Some (clock w))) c
           else c)
        (Store.complaints_table (db w)).
Proof.
  unfold saveCompanyNotes, fetchComplaints. plumbing. cbn.
  destruct o' as [err|]; reflexivity.
Qed.

(** What a patch that carries [updated_at := t] does to the rows it reaches
    and to the others. *)
Lemma stamped_update_rows (cid : string) (p : Store.Patch) (t : Timestamp)
    (l : list Complaint) (c' : Complaint) :
  Store.p_updated_at p = Some t ->
  In c' (map (fun c => if id c === cid then Store.apply_patch p c else c) l) ->
  (id c' = cid /\ updated_at c' = t
   /\ exists c, In c l /\ id c = cid /\ created_at c = created_at c')
  \/ (id c' <> cid /\ In c' l).
Proof.
  intros Hp Hin. apply in_map_iff in Hin. destruct Hin as (c & Hc & Hin).
  unfold Js.strict_eq in Hc.
  destruct (String.eqb_spec (id c) cid) as [Heq|Hne]; subst c'.
  - left. cbn. rewrite Hp. split; [exact Heq|]. split; [reflexivity|].
    exists c. auto.
  - right. auto.
Qed.

Lemma stamped_update_in_order (cid : string) (p : Store.Patch) (t : Timestamp)
    (l : list Complaint) :
  Store.p_updated_at p = Some t ->
  (forall c, In c l -> id c = cid -> created_at c <= t) ->
  Forall updated_after_created l ->
  Forall updated_after_created
    (map (fun c => if id c === cid then Store.apply_patch p c else c) l).
Proof.
  intros Hp Hclock Hl. rewrite Forall_forall in *. intros c' Hin.
  destruct (stamped_update_rows cid p t l c' Hp Hin)
    as [(_ & Hup & c & Hc & Hid & Hcr)|(_ & Hold)].
  - unfold updated_after_created. rewrite Hup, <- Hcr. now apply Hclock.
  - now apply Hl.
Qed.

Lemma restamped_status_patch (s : string) (t : Timestamp) (c : Complaint) :
  Store.apply_patch (Store.mkPatch (Some s) None (Some t)) c
  = restamped_status s t c.
Proof. reflexivity. Qed.

Lemma restamped_notes_patch (n : string) (t : Timestamp) (c : Complaint) :
  Store.apply_patch (Store.mkPatch None (Some n) (Some t)) c
  = restamped_notes n t c.
Proof. reflexivity. Qed.

(** C4 (amended): a served status change and a served notes change each
    rewrite exactly the rows with the given id: the new status, or the
    notes of the textarea, and the browser clock's current reading as
    [updated_at]; every other column and every other row is left as it
    was.  Such a row has [updated_at >= created_at] afterwards exactly when
    the clock's reading is not earlier than its creation time; when that
    holds for the rows reached, a table in which every row had
    [updated_at >= created_at] keeps it. *)
Theorem mutation_stamps_updated_at :
  forall (w : World State) (cid newStatus : string) (o' : Store.Outcome),
    Store.complaints_table
      (db (exec (updateComplaintStatus cid newStatus None o') w))
    = map (fun c => if id c === cid
                    then restamped_status newStatus (clock w) c else c)
          (Store.complaints_table (db w))
    /\ Store.complaints_table (db (exec (saveCompanyNotes cid None o') w))
       = map (fun c => if id c === cid
                       then restamped_notes (companyNotes (ui w)) (clock w) c
                       else c)
             (Store.complaints_table (db w))
    /\ (forall c, In c (Store.complaints_table (db w)) -> id c = cid ->
          In (restamped_status newStatus (clock w) c)
             (Store.complaints_table
                (db (exec (updateComplaintStatus cid newStatus None o') w)))
          /\ In (restamped_notes (companyNotes (ui w)) (clock w) c)
                (Store.complaints_table
                   (db (exec (saveCompanyNotes cid None o') w)))
          /\ updated_at (restamped_status newStatus (clock w) c) = clock w
          /\ updated_at (restamped_notes (companyNotes (ui w)) (clock w) c)
             = clock w
          /\ (updated_after_created (restamped_status newStatus (clock w) c)
              <-> created_at c <= clock w)
          /\ (updated_after_created
                (restamped_notes (companyNotes (ui w)) (clock w) c)
              <-> created_at c <= clock w))
    /\ ((forall c, In c (Store.complaints_table (db w)) -> id c = cid ->
                    created_at c <= clock w) ->
        Forall updated_after_created (Store.complaints_table (db w)) ->
        Forall updated_after_created
          (Store.complaints_table
             (db (exec (updateComplaintStatus cid newStatus None o') w)))
        /\ Forall updated_after_created
             (Store.complaints_table
                (db (exec (saveCompanyNotes cid None o') w)))).
Proof.
  intros w cid newStatus o'.
  assert (Hs : Store.complaints_table
                 (db (exec (updateComplaintStatus cid newStatus None o') w))
               = map (fun c => if id c === cid
                               then restamped_status newStatus (clock w) c
                               else c)
                     (Store.complaints_table (db w))).
  { apply updateComplaintStatus_served_table. }
  assert (Hn : Store.complaints_table
                 (db (exec (saveCompanyNotes cid None o') w))
               = map (fun c => if id c === cid
                               then restamped_notes (companyNotes (ui w))
                                                    (clock w) c
                               else c)
                     (Store.complaints_table (db w))).
  { apply saveCompanyNotes_served_table. }
  split; [exact Hs|]. split; [exact Hn|]. split.
  - intros c Hc Hid. apply strict_eq_true in Hid.
    split; [|split; [|split; [|split; [|split]]]].
    + rewrite Hs. apply in_map_iff. exists c. now rewrite Hid.
    + rewrite Hn. apply in_map_iff. exists c. now rewrite Hid.
    + reflexivity.
    + reflexivity.
    + reflexivity.
    + reflexivity.
  - intros Hclock Hall.
    rewrite updateComplaintStatus_served_table, saveCompanyNotes_served_table.
    split; apply (stamped_update_in_order cid _ (clock w)); auto.
Qed.

(** C4, refuted as stated: on a browser whose clock reads 150, a served
    status change of the complaint created at 200 leaves it with
    [updated_at] 150, earlier than its creation. *)
Lemma slow_browser_clock_stamps_before_creation :
  nth_error
    (Store.complaints_table
       (db (exec (CompanyDashboard.updateComplaintStatus
                    "c-2" "completed" None None)
                 Sample.slow_clock_world)))
    1
  = Some (mkComplaint "c-2" "bob" "EV-Trail" "brakes" "Rear brake squeals"
                      "medium" "completed" (Some "pads ordered") 200 150)
  /\ updated_at
       (mkComplaint "c-2" "bob" "EV-Trail" "brakes" "Rear brake squeals"
                    "medium" "completed" (Some "pads ordered") 200 150)
     < created_at
         (mkComplaint "c-2" "bob" "EV-Trail" "brakes" "Rear brake squeals"
                      "medium" "completed" (Some "pads ordered") 200 150).
Proof. split; reflexivity. Qed.

Lemma apply_same_status (c : Complaint) (t : Timestamp) :
  Store.apply_patch (Store.mkPatch (Some (status c)) None (Some t)) c = touch t c.
Proof. reflexivity. Qed.

(** C5: asking for the status a complaint already has is handled like any
    other status change.  When the store serves it, no error is alerted or
    logged, and every row of that complaint is left as it was except that
    its [updated_at] now holds the clock's reading. *)
Theorem same_status_update_refreshes_timestamp :
  forall (w : World State) (cid s : string) (o' : Store.Outcome),
    (forall c, In c (Store.complaints_table (db w)) -> id c = cid ->
               status c = s) ->
    alerts (exec (updateComplaintStatus cid s None o') w) = alerts w
    /\ console (exec (updateComplaintStatus cid s None None) w) = console w
    /\ Store.complaints_table (db (exec (updateComplaintStatus cid s None o') w))
       = map (fun c => if id c === cid then touch (clock w) c else c)
             (Store.complaints_table (db w))
    /\ map status
           (Store.complaints_table
              (db (exec (updateComplaintStatus cid s None o') w)))
       = map status (Store.complaints_table (db w))
    /\ forall c, In c (Store.complaints_table (db w)) -> id c = cid ->
         In (touch (clock w) c)
            (Store.complaints_table
               (db (exec (updateComplaintStatus cid s None o') w)))
         /\ status (touch (clock w) c) = s
         /\ updated_at (touch (clock w) c) = clock w
         /\ (updated_at c <> clock w ->
             updated_at (touch (clock w) c) <> updated_at c).
Proof.
  intros w cid s o' Hsame.
  assert (Htable :
    Store.complaints_table (db (exec (updateComplaintStatus cid s None o') w))
    = map (fun c => if id c === cid then touch (clock w) c else c)
          (Store.complaints_table (db w))).
  { rewrite updateComplaintStatus_served_table.
    apply map_ext_in. intros c Hc.
    destruct (String.eqb_spec (id c) cid) as [Hid|Hne]; unfold Js.strict_eq.
    - destruct (String.eqb_spec (id c) cid); [|contradiction].
      rewrite <- (Hsame c Hc Hid). apply apply_same_status.
    - destruct (String.eqb_spec (id c) cid); [contradiction|]. reflexivity. }
  split; [|split; [|split; [exact Htable|split]]].
  - unfold updateComplaintStatus, fetchComplaints. plumbing. cbn.
    destruct o' as [err|]; reflexivity.
  - reflexivity.
  - rewrite Htable, map_map. apply map_ext. intros c.
    destruct (id c === cid); reflexivity.
  - intros c Hc Hid. split; [|split; [|split]].
    + rewrite Htable. apply in_map_iff. exists c. split; [|exact Hc].
      apply strict_eq_true in Hid. rewrite Hid. reflexivity.
    + cbn. now apply Hsame.
    + reflexivity.
    + cbn. auto.
Qed.

End CompanyMutationFacts.

Lemma same_status_update_refreshes_timestamp_witness :
  Store.complaints_table
    (db (exec (CompanyDashboard.updateComplaintStatus "c-3" "pending" None None)
              Sample.company_world))
  = [Sample.c1; Sample.c2; touch 500 Sample.c3; Sample.c4; Sample.c5]
  /\ alerts (exec (CompanyDashboard.updateComplaintStatus "c-3" "pending" None None)
                  Sample.company_world)
     = [].
Proof.
  assert (Hsame : forall c,
             In c (Store.complaints_table (db Sample.company_world)) ->
             id c = "c-3" -> status c = "pending").
  { cbn. intros c [<-|[<-|[<-|[<-|[<-|[]]]]]] Hid;
      solve [reflexivity | discriminate Hid]. }
  destruct (same_status_update_refreshes_timestamp Sample.company_world
              "c-3" "pending" None Hsame) as (Halerts & _ & Htable & _).
  split; [rewrite Htable; reflexivity | rewrite Halerts; reflexivity].
Defined.

(** ** Refreshes that fail *)

(** C7: when the store answers a dashboard's fetch with an error, the
    component state is left as it was except that [loading] is cleared: the
    list (and, for the company dashboard, the filtered table, the filter
    and the counts) is the one held before, it is what the component
    renders, the error is written to the console, and the tables are
    untouched. *)
Theorem failed_fetch_keeps_previous_list :
  forall (session : Session) (e : string)
         (wc : World CustomerDashboard.State)
         (ws : World CompanyDashboard.State),
    (ui (exec (CustomerDashboard.fetchComplaints session (Some e)) wc)
     = CustomerDashboard.mkState
         (CustomerDashboard.complaints (ui wc)) false
         (CustomerDashboard.showForm (ui wc))
         (CustomerDashboard.formData (ui wc))
     /\ CustomerDashboard.render
          (ui (exec (CustomerDashboard.fetchComplaints session (Some e)) wc))
        = CustomerDashboard.ListView (CustomerDashboard.complaints (ui wc))
     /\ console (exec (CustomerDashboard.fetchComplaints session (Some e)) wc)
        = mkLog "Error fetching complaints:" e :: console wc
     /\ db (exec (CustomerDashboard.fetchComplaints session (Some e)) wc) = db wc)
    /\ (ui (exec (CompanyDashboard.fetchComplaints (Some e)) ws)
        = CompanyDashboard.mkState
            (CompanyDashboard.complaints (ui ws))
            (CompanyDashboard.filteredComplaints (ui ws)) false
            (CompanyDashboard.filter (ui ws))
            (CompanyDashboard.selectedComplaint (ui ws))
            (CompanyDashboard.companyNotes (ui ws))
            (CompanyDashboard.stats (ui ws))
        /\ CompanyDashboard.render
             (ui (exec (CompanyDashboard.fetchComplaints (Some e)) ws))
           = CompanyDashboard.TableView
               (CompanyDashboard.stats (ui ws))
               (CompanyDashboard.filter (ui ws))
               (CompanyDashboard.filteredComplaints (ui ws))
        /\ console (exec (CompanyDashboard.fetchComplaints (Some e)) ws)
           = mkLog "Error fetching complaints:" e :: console ws
        /\ db (exec (CompanyDashboard.fetchComplaints (Some e)) ws) = db ws).
Proof.
  intros session e wc ws. split.
  - unfold CustomerDashboard.fetchComplaints. plumbing. cbn.
    repeat (split; [reflexivity|]). reflexivity.
  - unfold CompanyDashboard.fetchComplaints. plumbing. cbn.
    repeat (split; [reflexivity|]). reflexivity.
Qed.

(** The same holds when the effect runs after the failed fetch: it
    recomputes the table and the counts from the list that was kept. *)
Lemma failed_refresh_step_keeps_list (e : string)
    (w : World CompanyDashboard.State) :
  CompanyDashboard.complaints
    (ui (exec (CompanyDashboard.step (CompanyDashboard.Refresh (Some e))) w))
  = CompanyDashboard.complaints (ui w)
  /\ CompanyDashboard.filteredComplaints
       (ui (exec (CompanyDashboard.step (CompanyDashboard.Refresh (Some e))) w))
     = CompanyDashboard.filteredComplaints (ui (exec CompanyDashboard.effect w)).
Proof.
  unfold CompanyDashboard.step. cbn [CompanyDashboard.handle].
  rewrite exec_seq, !effect_ui. split; reflexivity.
Qed.

Example failed_refresh_sample :
  CustomerDashboard.complaints
    (ui (exec (CustomerDashboard.run Sample.alice
                 [CustomerDashboard.Refresh None;
                  CustomerDashboard.Refresh (Some "Failed to fetch")])
              (CustomerDashboard.mount Sample.tables 500)))
  = [Sample.c3; Sample.c1].
Proof. reflexivity. Qed.

(** ** Roles *)

Section RoleFacts.

Import App.

Lemma or_string_is (v : option string) (d x : string) :
  d <> x -> Js.or_string v d = x -> v = Some x.
Proof.
  intros Hd. unfold Js.or_string. destruct v as [s|]; [|contradiction].
  destruct (s === ""); [contradiction|]. now intros ->.
Qed.

(** The role the component holds once the lookup has settled. *)
Lemma fetchUserRole_ui (uid : string) (o : Store.Outcome) (w : World State) :
  ui (exec (fetchUserRole uid o) w)
  = mkState (session (ui w))
      (Some (match Store.error (Store.select_role_single uid o (db w)) with
             | None =>
                 Js.or_string
                   (Js.opt_chain
                      (Store.data (Store.select_role_single uid o (db w)))
                      Store.role)
                   "customer"
             | Some _ => "customer"
             end))
      false.
Proof.
  unfold fetchUserRole. plumbing. cbn.
  destruct (Store.error _); reflexivity.
Qed.

Lemma select_role_company (uid : string) (o : Store.Outcome) (d : Store.Database) :
  match Store.error (Store.select_role_single uid o d) with
  | None =>
      Js.or_string
        (Js.opt_chain (Store.data (Store.select_role_single uid o d)) Store.role)
        "customer"
  | Some _ => "customer"
  end = "company"
  <-> o = None
      /\ exists u, List.filter (fun u => u_id u === uid) (Store.users_table d) = [u]
                   /\ u_role u = Some "company".
Proof.
  unfold Store.select_role_single. split.
  - destruct o as [e|]; [discriminate|].
    destruct (List.filter _ _) as [|u [|u' l]]; cbn; try discriminate.
    intros H. apply or_string_is in H; [|discriminate]. eauto.
  - intros (-> & u & -> & Hu). cbn. rewrite Hu. reflexivity.
Qed.

(** Every row [handleSignUp] adds to the users table has role customer. *)
Lemma handleSignUp_users (auth : Login.SignUpResult) (o : Store.Outcome)
    (w : World Login.State) :
  Store.users_table (db (exec (Login.handleSignUp auth o) w))
  = Store.users_table (db w)
  \/ exists uid,
       Login.authData_user auth = Some uid
       /\ Store.users_table (db (exec (Login.handleSignUp auth o) w))
          = Store.users_table (db w)
            ++ [mkUser uid (Login.email (ui w)) (Login.name (ui w))
                       (Login.phone (ui w)) (Some "customer")].
Proof.
  unfold Login.handleSignUp. plumbing. cbn.
  destruct (Login.signUpError auth) as [e|]; [now left|].
  destruct (Login.authData_user auth) as [uid|]; cbn; [|now left].
  destruct o as [e|]; cbn; [now left|].
  right. exists uid. split; reflexivity.
Qed.

(** When the role lookup is answered before anything else happens, the
    company dashboard is rendered exactly when the store served the lookup,
    the users table holds one row for that user, and that row's role is
    company; in every other case (a failed lookup, no single row, no role,
    an empty role, any other role) the customer dashboard is rendered, and
    a failed or role-less lookup leaves the role customer.  Sign-up adds
    to the users table only rows whose role is customer. *)
Theorem company_dashboard_only_for_company_role :
  forall (w : World State) (s : Session) (o : Store.Outcome)
         (auth : Login.SignUpResult) (wl : World Login.State),
    (render (ui (exec (onAuthStateChange (Some s) o) w))
     = CompanyDashboardScreen s
     <-> o = None
         /\ exists u,
              List.filter (fun u => u_id u === session_user_id s)
                          (Store.users_table (db w)) = [u]
              /\ u_role u = Some "company")
    /\ (render (ui (exec (onAuthStateChange (Some s) o) w))
        = CompanyDashboardScreen s
        \/ render (ui (exec (onAuthStateChange (Some s) o) w))
           = CustomerDashboardScreen s)
    /\ (forall e : string,
          userRole (ui (exec (fetchUserRole (session_user_id s) (Some e)) w))
          = Some "customer")
    /\ (forall u : User,
          List.filter (fun u => u_id u === session_user_id s)
                      (Store.users_table (db w)) = [u] ->
          u_role u = None \/ u_role u = Some "" ->
          userRole (ui (exec (fetchUserRole (session_user_id s) None) w))
          = Some "customer")
    /\ (forall u : User,
          In u (Store.users_table (db (exec (Login.handleSignUp auth o) wl))) ->
          In u (Store.users_table (db wl)) \/ u_role u = Some "customer").
Proof.
  intros w s o auth wl.
  assert (Hui : ui (exec (onAuthStateChange (Some s) o) w)
                = ui (exec (fetchUserRole (session_user_id s) o)
                        (mkWorld (mkState (Some s) (userRole (ui w)) (loading (ui w)))
                                 (db w) (console w) (alerts w) (clock w)))).
  { reflexivity. }
  rewrite Hui, fetchUserRole_ui. cbn [db ui session].
  unfold render. cbn [loading session userRole userRole_is].
  split; [|split; [|split; [|split]]].
  - rewrite <- select_role_company.
    destruct (String.eqb_spec
                (match Store.error
                         (Store.select_role_single (session_user_id s) o (db w))
                 with
                 | None =>
                     Js.or_string
                       (Js.opt_chain
                          (Store.data
                             (Store.select_role_single (session_user_id s) o (db w)))
                          Store.role)
                       "customer"
                 | Some _ => "customer"
                 end) "company") as [Heq|Hne]; unfold Js.strict_eq.
    + rewrite Heq. cbn. tauto.
    + apply String.eqb_neq in Hne. rewrite Hne.
      apply String.eqb_neq in Hne. split; [discriminate | contradiction].
  - destruct (_ === "company"); auto.
  - intros e. rewrite fetchUserRole_ui. reflexivity.
  - intros u Hu Hrole. rewrite fetchUserRole_ui.
    unfold Store.select_role_single. rewrite Hu. cbn.
    destruct Hrole as [->| ->]; reflexivity.
  - intros u Hin.
    destruct (handleSignUp_users auth o wl) as [Heq|(uid & _ & Heq)];
      rewrite Heq in Hin.
    + now left.
    + apply in_app_or in Hin. destruct Hin as [Hin|[<-|[]]]; auto.
Qed.

End RoleFacts.

(** The two session callbacks as defined above are the asynchronous ones
    with the lookup answered at once. *)
Lemma answered_at_once (s : Session) (o : Store.Outcome) (w : World App.State) :
  exec (App.onAuthStateChange (Some s) o) w
  = exec (App.run_async
            [App.AuthStateChanges (Some s);
             App.RoleLookupAnswers (session_user_id s) o]) w
  /\ exec (App.onInitialSession (Some s) o) w
     = exec (App.run_async
               [App.SessionArrives (Some s);
                App.RoleLookupAnswers (session_user_id s) o]) w.
Proof.
  unfold App.onAuthStateChange, App.onInitialSession.
  cbn [App.run_async App.react].
  rewrite !exec_seq, !exec_ret. split; reflexivity.
Qed.

(** A session change to a user leaves the role as it was until the lookup
    answers; only a change to no session, and a logout, clear it. *)
Lemma session_change_keeps_role (s : Session) (w : World App.State) :
  App.userRole (ui (exec (App.react (App.AuthStateChanges (Some s))) w))
  = App.userRole (ui w)
  /\ App.userRole (ui (exec (App.react (App.SessionArrives (Some s))) w))
     = App.userRole (ui w)
  /\ App.userRole (ui (exec (App.react (App.AuthStateChanges None)) w)) = None
  /\ App.userRole (ui (exec (App.react App.LogoutClicks) w)) = None.
Proof.
  repeat split.
Qed.

(** C9, failing input: bob's users row has role customer.  (1) The staff
    user is signed in and the app receives bob's session: until bob's
    lookup answers, bob is rendered the company dashboard with the staff
    user's role.  (2) The staff user signs in and out before the lookup
    answers, bob signs in and his lookup answers customer, then the staff
    user's answer arrives: bob is rendered the company dashboard, and
    nothing is left to change that. *)
Theorem stale_role_gives_company_dashboard :
  List.filter (fun u => u_id u === "bob") (Store.users_table Sample.tables)
  = [Sample.bob_row]
  /\ u_role Sample.bob_row = Some "customer"
  /\ App.well_timed []
       [App.SessionArrives None; App.AuthStateChanges (Some Sample.staff);
        App.RoleLookupAnswers "staff" None;
        App.AuthStateChanges (Some Sample.bob)] = true
  /\ App.render
       (ui (exec (App.run_async
                    [App.SessionArrives None;
                     App.AuthStateChanges (Some Sample.staff);
                     App.RoleLookupAnswers "staff" None;
                     App.AuthStateChanges (Some Sample.bob)])
                 (App.mount Sample.tables 500)))
     = App.CompanyDashboardScreen Sample.bob
  /\ App.well_timed []
       [App.SessionArrives None; App.AuthStateChanges (Some Sample.staff);
        App.LogoutClicks; App.AuthStateChanges None;
        App.AuthStateChanges (Some Sample.bob);
        App.RoleLookupAnswers "bob" None;
        App.RoleLookupAnswers "staff" None] = true
  /\ App.render
       (ui (exec (App.run_async
                    [App.SessionArrives None;
                     App.AuthStateChanges (Some Sample.staff);
                     App.LogoutClicks; App.AuthStateChanges None;
                     App.AuthStateChanges (Some Sample.bob);
                     App.RoleLookupAnswers "bob" None])
                 (App.mount Sample.tables 500)))
     = App.CustomerDashboardScreen Sample.bob
  /\ App.render
       (ui (exec (App.run_async
                    [App.SessionArrives None;
                     App.AuthStateChanges (Some Sample.staff);
                     App.LogoutClicks; App.AuthStateChanges None;
                     App.AuthStateChanges (Some Sample.bob);
                     App.RoleLookupAnswers "bob" None;
                     App.RoleLookupAnswers "staff" None])
                 (App.mount Sample.tables 500)))
     = App.CompanyDashboardScreen Sample.bob.
Proof.
  repeat (split; [reflexivity|]). reflexivity.
Qed.

Example staff_row_gets_company_dashboard :
  App.render (ui (exec (App.onAuthStateChange (Some Sample.staff) None)
                        (App.mount Sample.tables 500)))
  = App.CompanyDashboardScreen Sample.staff.
Proof. reflexivity. Qed.

(** A role other than company, here admin, gets the customer dashboard. *)
Example other_role_gets_customer_dashboard :
  App.render (ui (exec (App.onAuthStateChange
                          (Some (mkSession "auditor" "audit@evbikes.com")) None)
                        (App.mount Sample.tables 500)))
  = App.CustomerDashboardScreen (mkSession "auditor" "audit@evbikes.com").
Proof. reflexivity. Qed.

(** So does the company user when the lookup fails. *)
Example failed_lookup_gets_customer_dashboard :
  App.render (ui (exec (App.onAuthStateChange (Some Sample.staff)
                          (Some "Failed to fetch"))
                        (App.mount Sample.tables 500)))
  = App.CustomerDashboardScreen Sample.staff.
Proof. reflexivity. Qed.

Lemma company_dashboard_only_for_company_role_witness :
  App.render (ui (exec (App.onAuthStateChange (Some Sample.staff) None)
                        (App.mount Sample.tables 500)))
  = App.CompanyDashboardScreen Sample.staff.
Proof.
  apply (proj1 (company_dashboard_only_for_company_role
                  (App.mount Sample.tables 500) Sample.staff None
                  (Login.mkSignUpResult None None)
                  (mkWorld Login.initial Sample.tables [] [] 500))).
  split; [reflexivity|].
  exists Sample.staff_row. split; reflexivity.
Defined.

(** * Further properties of the components *)

(** ** The customer dashboard: list, form and submission *)

Section CustomerListAndForm.

Import CustomerDashboard.

Variable session : Session.

(** X1: a served refresh shows every complaint of the viewer that the
    table holds, each as often as the table holds it, newest first. *)
Theorem customer_refresh_lists_all_own_newest_first :
  forall (w : World State),
    (forall c,
        In c (complaints (ui (exec (fetchComplaints session None) w)))
        <-> In c (Store.complaints_table (db w))
            /\ user_id c = session_user_id session)
    /\ Permutation
         (complaints (ui (exec (fetchComplaints session None) w)))
         (Store.eq_user_id (session_user_id session)
                           (Store.complaints_table (db w)))
    /\ StronglySorted newer
         (complaints (ui (exec (fetchComplaints session None) w))).
Proof.
  intros w.
  assert (Hl : complaints (ui (exec (fetchComplaints session None) w))
               = Store.order_created_at_desc
                   (Store.eq_user_id (session_user_id session)
                                     (Store.complaints_table (db w)))).
  { reflexivity. }
  rewrite Hl. split; [|split].
  - intros c. rewrite order_created_at_desc_In. apply eq_user_id_owner.
  - apply order_created_at_desc_perm.
  - apply order_created_at_desc_sorted.
Qed.

Lemma required_filled (v : string) : v <> "" -> required v = true.
Proof.
  intros Hv. unfold required. apply strict_eq_false in Hv.
  now rewrite Hv.
Qed.

Lemma required_empty : required "" = false.
Proof. reflexivity. Qed.

Lemma onSubmit_filled (w : World State) (o : Store.Outcome)
    (g : Store.Generated) (o' : Store.Outcome) :
  form_valid (formData (ui w)) = true ->
  exec (onSubmit session o g o') w = exec (handleSubmit session o g o') w.
Proof.
  intros Hvalid. unfold onSubmit at 1. rewrite exec_bind.
  cbn [read_ui fst snd]. rewrite Hvalid. reflexivity.
Qed.

(** A click on the submit button of a form that is in the page, with the
    button enabled and the four controls valid, runs the handler. *)
Lemma submitButton_runs (w : World State) (o : Store.Outcome)
    (g : Store.Generated) (o' : Store.Outcome) :
  form_shown (ui w) = true ->
  loading (ui w) = false ->
  controls_valid (formData (ui w)) = true ->
  exec (submitButton session o g o') w = exec (handleSubmit session o g o') w.
Proof.
  intros Hshown Hloading Hvalid. unfold submitButton at 1.
  rewrite exec_bind. cbn [read_ui fst snd].
  rewrite Hshown, Hloading, Hvalid. reflexivity.
Qed.

(** What the four controls leave in the component state. *)
Lemma four_controls_typed (w : World State) (model issue text prio : string) :
  ui (exec (handleChange "bicycle_model" model ;;
            handleChange "issue_type" issue ;;
            handleChange "description" text ;;
            handleChange "priority" prio) w)
  = mkState (complaints (ui w)) (loading (ui w)) (showForm (ui w))
            (mkFormData model issue text prio)
  /\ db (exec (handleChange "bicycle_model" model ;;
               handleChange "issue_type" issue ;;
               handleChange "description" text ;;
               handleChange "priority" prio) w)
     = db w.
Proof.
  split; reflexivity.
Qed.

(** X3: on a form that is in the page with its button enabled, what the
    customer enters in the four controls (a model and a description that
    are not empty, one of the seven issue types, one of the three
    priorities) is what a click on submit stores when the insert is
    served: one new row with exactly those values, owned by the viewer,
    pending, without notes. *)
Theorem typed_values_are_submitted :
  forall (w : World State) (g : Store.Generated) (o' : Store.Outcome)
         (model issue text prio : string),
    form_shown (ui w) = true ->
    loading (ui w) = false ->
    model <> "" ->
    text <> "" ->
    In issue (tl issue_options) ->
    In prio priority_options ->
    Store.complaints_table
      (db (exec ((handleChange "bicycle_model" model ;;
                  handleChange "issue_type" issue ;;
                  handleChange "description" text ;;
                  handleChange "priority" prio) ;;
                 submitButton session None g o')
                w))
    = Store.complaints_table (db w)
      ++ [mkComplaint (Store.g_id g) (session_user_id session)
                      model issue text prio "pending" None
                      (Store.g_created_at g) (Store.g_updated_at g)].
Proof.
  intros w g o' model issue text prio Hshown Hloading Hm Ht Hi Hp.
  rewrite exec_seq.
  destruct (four_controls_typed w model issue text prio) as [Hui Hdb].
  rewrite submitButton_runs.
  - rewrite handleSubmit_served_table, Hui, Hdb. reflexivity.
  - rewrite Hui. exact Hshown.
  - rewrite Hui. exact Hloading.
  - rewrite Hui. unfold controls_valid. cbn [formData f_bicycle_model
      f_issue_type f_priority f_description].
    rewrite (required_filled model Hm), (required_filled text Ht).
    unfold issue_options, priority_options in *. cbn [tl In] in Hi, Hp.
    destruct Hi as [<-|[<-|[<-|[<-|[<-|[<-|[<-|[]]]]]]]];
      destruct Hp as [<-|[<-|[<-|[]]]]; reflexivity.
Qed.

(** Splits on every comparison of a control name. *)
Ltac by_control_name :=
  repeat match goal with
         | |- context [String.eqb ?a ?b] =>
             destruct (String.eqb_spec a b); subst; cbn
         end;
  try reflexivity; try congruence.

(** X4: [handleChange] writes the named control only: writes to two
    different controls can be done in either order, a second write to the
    same control replaces the first, and nothing but the form is touched. *)
Theorem handleChange_writes_one_control :
  forall (w : World State) (f f' v v' : string),
    (f <> f' ->
     exec (handleChange f v ;; handleChange f' v') w
     = exec (handleChange f' v' ;; handleChange f v) w)
    /\ exec (handleChange f v ;; handleChange f v') w
       = exec (handleChange f v') w
    /\ complaints (ui (exec (handleChange f v) w)) = complaints (ui w)
    /\ db (exec (handleChange f v) w) = db w.
Proof.
  intros w f f' v v'. split; [|split; [|split; reflexivity]].
  - intros Hne. unfold handleChange. plumbing. unfold Js.strict_eq. cbn.
    by_control_name.
  - unfold handleChange. plumbing. unfold Js.strict_eq. cbn.
    by_control_name.
Qed.


Lemma customer_step_table (e : Event) (w : World State) :
  customer_local e = true ->
  Store.users_table (db (exec (step session e) w)) = Store.users_table (db w)
  /\ (Store.complaints_table (db (exec (step session e) w))
      = Store.complaints_table (db w)
      \/ exists g,
           Store.complaints_table (db (exec (step session e) w))
           = Store.complaints_table (db w)
             ++ [submitted_row session g (formData (ui w))]).
Proof.
  destruct e as [o|o g o'|field value| |d|t]; cbn [customer_local step];
    intros Hl; try discriminate Hl.
  - unfold fetchComplaints. plumbing. cbn. destruct o; cbn; auto.
  - unfold onSubmit, handleSubmit, fetchComplaints. plumbing. cbn.
    destruct (form_valid (formData (ui w))); cbn; [|auto].
    destruct o as [err|]; cbn; [auto|].
    destruct o' as [err|]; cbn; (split; [reflexivity|]);
      right; exists g; reflexivity.
  - cbn. auto.
  - cbn. auto.
  - cbn. auto.
Qed.

(** X6: the customer dashboard never changes or removes a row: whatever
    the customer does, the complaints table afterwards is the one before
    followed by new rows, and each new row is owned by the viewer, pending
    and without notes; the users table is not touched. *)
Theorem customer_events_only_append_own_pending_rows :
  forall (es : list Event) (w : World State),
    forallb customer_local es = true ->
    Store.users_table (db (exec (run session es) w)) = Store.users_table (db w)
    /\ exists added,
         Store.complaints_table (db (exec (run session es) w))
         = Store.complaints_table (db w) ++ added
         /\ Forall (fun c => user_id c = session_user_id session
                             /\ status c = "pending"
                             /\ company_notes c = None)
                   added.
Proof.
  induction es as [|e es IH]; intros w Hes; cbn [run].
  - split; [reflexivity|]. exists []. rewrite app_nil_r. auto.
  - cbn [forallb] in Hes. apply andb_true_iff in Hes. destruct Hes as [He Hes].
    rewrite exec_seq.
    destruct (IH (exec (step session e) w) Hes) as (Hu & added & Ht & Hadded).
    destruct (customer_step_table e w He) as (Hu' & [Hsame|(g & Hnew)]).
    + split; [congruence|]. exists added. rewrite Ht, Hsame. auto.
    + split; [congruence|].
      exists (submitted_row session g (formData (ui w)) :: added).
      rewrite Ht, Hnew, <- app_assoc. split; [reflexivity|].
      constructor; [cbn; auto | exact Hadded].
Qed.

End CustomerListAndForm.

Lemma typed_values_are_submitted_witness :
  Store.complaints_table
    (db (exec ((CustomerDashboard.handleChange "bicycle_model" "EV-Sport 2024" ;;
                CustomerDashboard.handleChange "issue_type" "battery" ;;
                CustomerDashboard.handleChange "description" "Won't hold charge" ;;
                CustomerDashboard.handleChange "priority" "high") ;;
               CustomerDashboard.submitButton Sample.alice None
                 Sample.generated None)
              (Sample.customer_world CustomerDashboard.empty_form)))
  = Store.complaints_table Sample.tables
    ++ [mkComplaint "c-6" "alice" "EV-Sport 2024" "battery"
                    "Won't hold charge" "high" "pending" None 500 500].
Proof.
  apply (typed_values_are_submitted Sample.alice
           (Sample.customer_world CustomerDashboard.empty_form)
           Sample.generated None);
    try reflexivity; try discriminate; cbn; auto.
Defined.

Lemma customer_events_only_append_own_pending_rows_witness :
  Store.users_table
    (db (exec (CustomerDashboard.run Sample.alice
                 [CustomerDashboard.Refresh None;
                  CustomerDashboard.Submit None Sample.generated None])
              (Sample.customer_world Sample.scenario_form)))
  = Store.users_table Sample.tables.
Proof.
  apply (customer_events_only_append_own_pending_rows Sample.alice
           [CustomerDashboard.Refresh None;
            CustomerDashboard.Submit None Sample.generated None]
           (Sample.customer_world Sample.scenario_form)).
  reflexivity.
Defined.

(** The rows a served refresh of a customer dashboard lists. *)
Lemma customer_refresh_rows (viewer : Session)
    (w : World CustomerDashboard.State) (c : Complaint) :
  In c (Store.complaints_table (db w)) /\ user_id c = session_user_id viewer
  <-> In c (CustomerDashboard.complaints
              (ui (exec (CustomerDashboard.fetchComplaints viewer None) w))).
Proof.
  change (CustomerDashboard.complaints
            (ui (exec (CustomerDashboard.fetchComplaints viewer None) w)))
    with (Store.order_created_at_desc
            (Store.eq_user_id (session_user_id viewer)
                              (Store.complaints_table (db w)))).
  rewrite order_created_at_desc_In, eq_user_id_owner. reflexivity.
Qed.

(** ** The company dashboard: list, counts and mutations *)

Section CompanyListAndMutations.

Import CompanyDashboard.

Lemma complaint_of_joined (us : list User) (l : list Complaint) :
  map complaint (map (Store.join_user us) l) = l.
Proof.
  rewrite map_map. cbn. apply map_id.
Qed.

(** X7: a served refresh shows every row of the complaints table exactly
    once, whoever owns it, newest first, each with the contact of the first
    users row whose id is the complaint's owner (none when there is no such
    row); the total count is the number of rows of the table. *)
Theorem company_refresh_lists_every_complaint :
  forall (w : World State),
    map complaint (complaints (ui (exec (step (Refresh None)) w)))
    = Store.order_created_at_desc (Store.complaints_table (db w))
    /\ Permutation
         (map complaint (complaints (ui (exec (step (Refresh None)) w))))
         (Store.complaints_table (db w))
    /\ StronglySorted newer
         (map complaint (complaints (ui (exec (step (Refresh None)) w))))
    /\ total (stats (ui (exec (step (Refresh None)) w)))
       = List.length (Store.complaints_table (db w))
    /\ forall c, In c (complaints (ui (exec (step (Refresh None)) w))) ->
         users c
         = option_map Store.contact_of
             (find (fun u => u_id u === user_id c) (Store.users_table (db w))).
Proof.
  intros w.
  assert (Hl : complaints (ui (exec (step (Refresh None)) w)) = all_joined (db w)).
  { unfold step. rewrite exec_seq, effect_ui. reflexivity. }
  assert (Hs : total (stats (ui (exec (step (Refresh None)) w)))
               = List.length (all_joined (db w))).
  { unfold step. rewrite exec_seq, effect_ui. reflexivity. }
  rewrite Hs, Hl. unfold all_joined. rewrite complaint_of_joined.
  split; [reflexivity|]. split; [apply order_created_at_desc_perm|].
  split; [apply order_created_at_desc_sorted|]. split.
  - rewrite length_map.
    apply Permutation_length, order_created_at_desc_perm.
  - intros c Hc. apply in_map_iff in Hc. destruct Hc as (r & <- & _).
    reflexivity.
Qed.

(** No record is counted under two of the three displayed statuses. *)
Lemma three_counts_le (l : list JoinedComplaint) :
  (List.length (with_status "pending" l)
   + List.length (with_status "in-progress" l)
   + List.length (with_status "completed" l)
   <= List.length l)%nat.
Proof.
  unfold with_status, Js.strict_eq.
  induction l as [|c l IH]; [reflexivity|]. cbn [List.filter].
  destruct (String.eqb_spec (status c) "pending") as [E|_];
    [rewrite E; cbn; lia|].
  destruct (String.eqb_spec (status c) "in-progress") as [E|_];
    [rewrite E; cbn; lia|].
  destruct (String.eqb (status c) "completed"); cbn; lia.
Qed.

Lemma effect_in_sync (w : World State) :
  stats (ui (exec effect w)) = counts_of (complaints (ui (exec effect w)))
  /\ incl (filteredComplaints (ui (exec effect w)))
          (complaints (ui (exec effect w))).
Proof.
  rewrite effect_ui. cbn. split; [reflexivity|].
  unfold with_status.
  destruct (filter (ui w) === "pending"); [apply incl_filter|].
  destruct (filter (ui w) === "in-progress"); [apply incl_filter|].
  destruct (filter (ui w) === "completed"); [apply incl_filter|].
  apply incl_refl.
Qed.

Lemma run_in_sync (es : list Event) (w : World State) :
  stats (ui w) = counts_of (complaints (ui w))
  /\ incl (filteredComplaints (ui w)) (complaints (ui w)) ->
  stats (ui (exec (run es) w)) = counts_of (complaints (ui (exec (run es) w)))
  /\ incl (filteredComplaints (ui (exec (run es) w)))
          (complaints (ui (exec (run es) w))).
Proof.
  revert w. induction es as [|e es IH]; intros w Hw; cbn [run].
  - exact Hw.
  - rewrite exec_seq. apply IH. unfold step. rewrite exec_seq.
    apply effect_in_sync.
Qed.

(** X8: whatever happens to a mounted company dashboard, and whatever the
    statuses in the table are, the counts are those of the list it holds,
    the three status counts together never exceed the total, and every row
    of the table view is a row of that list. *)
Theorem counts_and_table_follow_list :
  forall (d : Store.Database) (t : Timestamp) (es : list Event),
    stats (ui (exec (run es) (mount d t)))
    = counts_of (complaints (ui (exec (run es) (mount d t))))
    /\ (pending (stats (ui (exec (run es) (mount d t))))
        + inProgress (stats (ui (exec (run es) (mount d t))))
        + completed (stats (ui (exec (run es) (mount d t))))
        <= total (stats (ui (exec (run es) (mount d t)))))%nat
    /\ incl (filteredComplaints (ui (exec (run es) (mount d t))))
            (complaints (ui (exec (run es) (mount d t)))).
Proof.
  intros d t es.
  destruct (run_in_sync es (mount d t)) as [Hs Hi].
  { split; [reflexivity | apply incl_refl]. }
  split; [exact Hs|]. split; [|exact Hi].
  rewrite Hs. cbn. apply three_counts_le.
Qed.

(** The rows an update leaves behind for the id it names. *)
Lemma patched_rows (cid : string) (p : Store.Patch) (l : list Complaint)
    (c' : Complaint) :
  In c' (map (fun c => if id c === cid then Store.apply_patch p c else c) l) ->
  id c' = cid ->
  exists c, In c l /\ id c = cid /\ c' = Store.apply_patch p c.
Proof.
  intros Hin Hid. apply in_map_iff in Hin. destruct Hin as (c & Hc & Hin).
  unfold Js.strict_eq in Hc.
  destruct (String.eqb_spec (id c) cid) as [Heq|Hne]; subst c'.
  - exists c. auto.
  - contradiction.
Qed.

Lemma patched_row_present (cid : string) (p : Store.Patch) (l : list Complaint)
    (c : Complaint) :
  In c l -> id c = cid ->
  In (Store.apply_patch p c)
     (map (fun c => if id c === cid then Store.apply_patch p c else c) l).
Proof.
  intros Hin Hid. apply in_map_iff. exists c. split; [|exact Hin].
  apply strict_eq_true in Hid. now rewrite Hid.
Qed.

Lemma all_joined_In (d : Store.Database) (c : JoinedComplaint) :
  In c (all_joined d) -> In (complaint c) (Store.complaints_table d).
Proof.
  unfold all_joined. intros Hc. apply in_map_iff in Hc.
  destruct Hc as (r & <- & Hr). cbn. now apply order_created_at_desc_In.
Qed.

Lemma status_select_ui (cid s : string) (w : World State) :
  complaints (ui (exec (step (StatusSelect cid s None None)) w))
  = all_joined (db (exec (updateComplaintStatus cid s None None) w))
  /\ filter (ui (exec (step (StatusSelect cid s None None)) w)) = filter (ui w).
Proof.
  unfold step. rewrite exec_seq, effect_ui. split; reflexivity.
Qed.

Lemma filter_narrows_sublist (w : World State) (cid s : string) :
  In (filter (ui w)) narrowing_filters ->
  forall c,
    In c (filteredComplaints (ui (exec (step (StatusSelect cid s None None)) w))) ->
    In c (complaints (ui (exec (step (StatusSelect cid s None None)) w)))
    /\ status c = filter (ui w).
Proof.
  intros Hf c. unfold step. rewrite exec_seq, effect_ui.
  cbn [filteredComplaints complaints].
  rewrite (handle_keeps_filter (StatusSelect cid s None None) w eq_refl).
  unfold narrowing_filters in Hf. cbn [In] in Hf. unfold with_status.
  destruct Hf as [<-|[<-|[<-|[]]]]; cbn;
    rewrite filter_In, strict_eq_true; auto.
Qed.

(** X9: after a served status change and the served refresh that follows,
    every row of the dashboard's list with that id shows the new status
    and the clock's reading as its last update; and when a narrowing
    filter other than the new status is active, the complaint is no longer
    in the table view. *)
Theorem served_status_change_shows_in_list :
  forall (w : World State) (cid s : string),
    (forall c,
        In c (complaints (ui (exec (step (StatusSelect cid s None None)) w))) ->
        id c = cid ->
        status c = s /\ updated_at c = clock w)
    /\ (forall r, In r (Store.complaints_table (db w)) -> id r = cid ->
         exists c,
           In c (complaints (ui (exec (step (StatusSelect cid s None None)) w)))
           /\ id c = cid)
    /\ (In (filter (ui w)) narrowing_filters -> s <> filter (ui w) ->
        forall c,
          In c (filteredComplaints
                  (ui (exec (step (StatusSelect cid s None None)) w))) ->
          id c <> cid).
Proof.
  intros w cid s.
  assert (Hrows : forall c,
             In c (complaints (ui (exec (step (StatusSelect cid s None None)) w))) ->
             id c = cid -> status c = s /\ updated_at c = clock w).
  { intros c Hc Hid.
    rewrite (proj1 (status_select_ui cid s w)) in Hc.
    apply all_joined_In in Hc.
    rewrite updateComplaintStatus_served_table in Hc.
    destruct (patched_rows cid _ _ _ Hc Hid) as (r & _ & _ & Hr).
    rewrite Hr. split; reflexivity. }
  split; [exact Hrows|]. split.
  { intros r Hr Hid.
    exists (Store.join_user
              (Store.users_table (db (exec (updateComplaintStatus cid s None None) w)))
              (Store.apply_patch (Store.mkPatch (Some s) None (Some (clock w))) r)).
    split; [|exact Hid].
    rewrite (proj1 (status_select_ui cid s w)). unfold all_joined.
    apply in_map, order_created_at_desc_In.
    rewrite updateComplaintStatus_served_table.
    now apply patched_row_present. }
  intros Hf Hne c Hc Hid.
  destruct (filter_narrows_sublist w cid s Hf c Hc) as [Hin Hst].
  destruct (Hrows c Hin Hid) as [Hs _]. congruence.
Qed.

(** X10: when the store refuses a status change or a notes change, the
    tables and the component state are left exactly as they were (the
    details dialog stays open with the typed notes), and the error is
    alerted and logged under the handler's own label. *)
Theorem refused_mutation_changes_nothing :
  forall (w : World State) (cid s e : string) (o' : Store.Outcome),
    (db (exec (updateComplaintStatus cid s (Some e) o') w) = db w
     /\ ui (exec (updateComplaintStatus cid s (Some e) o') w) = ui w
     /\ alerts (exec (updateComplaintStatus cid s (Some e) o') w)
        = "Error updating status. Please try again." :: alerts w
     /\ console (exec (updateComplaintStatus cid s (Some e) o') w)
        = mkLog "Error updating status:" e :: console w)
    /\ (db (exec (saveCompanyNotes cid (Some e) o') w) = db w
        /\ ui (exec (saveCompanyNotes cid (Some e) o') w) = ui w
        /\ alerts (exec (saveCompanyNotes cid (Some e) o') w)
           = "Error saving notes. Please try again." :: alerts w
        /\ console (exec (saveCompanyNotes cid (Some e) o') w)
           = mkLog "Error saving notes:" e :: console w).
Proof.
  intros w cid s e o'.
  unfold updateComplaintStatus, saveCompanyNotes. plumbing. cbn. auto 10.
Qed.

Lemma update_misses (cid : string) (p : Store.Patch) (l : list Complaint) :
  (forall c, In c l -> id c <> cid) ->
  map (fun c => if id c === cid then Store.apply_patch p c else c) l = l.
Proof.
  intros Hnone. rewrite <- (map_id l) at 2. apply map_ext_in.
  intros c Hc. apply Hnone, strict_eq_false in Hc. now rewrite Hc.
Qed.

(** X11: a status change or a notes change for an id that no row has
    leaves the table as it is and raises no error; saving notes even
    announces success. *)
Theorem update_of_unknown_id_is_silent :
  forall (w : World State) (cid s : string) (o' : Store.Outcome),
    (forall c, In c (Store.complaints_table (db w)) -> id c <> cid) ->
    Store.complaints_table (db (exec (updateComplaintStatus cid s None o') w))
    = Store.complaints_table (db w)
    /\ alerts (exec (updateComplaintStatus cid s None o') w) = alerts w
    /\ Store.complaints_table (db (exec (saveCompanyNotes cid None o') w))
       = Store.complaints_table (db w)
    /\ alerts (exec (saveCompanyNotes cid None o') w)
       = "Notes saved successfully!" :: alerts w.
Proof.
  intros w cid s o' Hnone.
  rewrite updateComplaintStatus_served_table, saveCompanyNotes_served_table.
  rewrite !update_misses by exact Hnone.
  unfold updateComplaintStatus, saveCompanyNotes, fetchComplaints.
  plumbing. cbn. destruct o' as [err|]; auto.
Qed.

(** What opening the details dialog, and typing into it, leave behind. *)
Lemma dialog_opened (c : JoinedComplaint) (w : World State) :
  companyNotes (ui (exec (step (ViewDetails c)) w))
  = Js.or_string (company_notes c) ""
  /\ db (exec (step (ViewDetails c)) w) = db w
  /\ clock (exec (step (ViewDetails c)) w) = clock w.
Proof.
  unfold step. rewrite exec_seq, effect_ui.
  destruct (effect_world (exec (handle (ViewDetails c)) w)) as (-> & _ & _ & ->).
  repeat split.
Qed.

Lemma notes_typed (n : string) (w : World State) :
  companyNotes (ui (exec (step (NotesTyped n)) w)) = n
  /\ db (exec (step (NotesTyped n)) w) = db w
  /\ clock (exec (step (NotesTyped n)) w) = clock w.
Proof.
  unfold step. rewrite exec_seq, effect_ui.
  destruct (effect_world (exec (handle (NotesTyped n)) w)) as (-> & _ & _ & ->).
  repeat split.
Qed.

Lemma notes_saved (cid : string) (o' : Store.Outcome) (w : World State) :
  Store.complaints_table (db (exec (step (SaveNotes cid None o')) w))
  = map (fun r =>
           if id r === cid
           then Store.apply_patch
                  (Store.mkPatch None (Some (companyNotes (ui w)))
                                 (Some (clock w))) r
           else r)
        (Store.complaints_table (db w))
  /\ selectedComplaint (ui (exec (step (SaveNotes cid None o')) w)) = None
  /\ companyNotes (ui (exec (step (SaveNotes cid None o')) w)) = "".
Proof.
  unfold step. rewrite exec_seq, effect_ui.
  destruct (effect_world (exec (handle (SaveNotes cid None o')) w)) as (-> & _).
  cbn [handle selectedComplaint companyNotes].
  rewrite saveCompanyNotes_served_table. split; [reflexivity|].
  unfold saveCompanyNotes, fetchComplaints. plumbing. cbn.
  destruct o'; split; reflexivity.
Qed.

(** What a served status change, and the clock moving on, leave behind. *)
Lemma status_changed (cid s : string) (o' : Store.Outcome) (w : World State) :
  Store.complaints_table (db (exec (step (StatusSelect cid s None o')) w))
  = map (fun r => if id r === cid
                  then restamped_status s (clock w) r else r)
        (Store.complaints_table (db w))
  /\ companyNotes (ui (exec (step (StatusSelect cid s None o')) w))
     = companyNotes (ui w)
  /\ clock (exec (step (StatusSelect cid s None o')) w) = clock w.
Proof.
  unfold step. rewrite exec_seq, effect_ui.
  destruct (effect_world (exec (handle (StatusSelect cid s None o')) w))
    as (-> & _ & _ & ->).
  cbn [handle companyNotes].
  rewrite updateComplaintStatus_served_table. split; [reflexivity|].
  unfold updateComplaintStatus, fetchComplaints. plumbing. cbn.
  destruct o'; split; reflexivity.
Qed.

Lemma clock_moved (t : Timestamp) (w : World State) :
  db (exec (step (Tick t)) w) = db w
  /\ companyNotes (ui (exec (step (Tick t)) w)) = companyNotes (ui w)
  /\ clock (exec (step (Tick t)) w) = t.
Proof.
  unfold step. rewrite exec_seq, effect_ui.
  destruct (effect_world (exec (handle (Tick t)) w)) as (-> & _ & _ & ->).
  repeat split.
Qed.

Lemma notes_saved_clock (cid : string) (o' : Store.Outcome) (w : World State) :
  clock (exec (step (SaveNotes cid None o')) w) = clock w.
Proof.
  unfold step. rewrite exec_seq.
  destruct (effect_world (exec (handle (SaveNotes cid None o')) w))
    as (_ & _ & _ & ->).
  cbn [handle]. unfold saveCompanyNotes, fetchComplaints. plumbing. cbn.
  destruct o'; reflexivity.
Qed.

(** X12: a served status change and a served notes change, made one
    after the other with the clock moving on in between, give in either
    order the same table in every column but [updated_at]; when both are
    for the same complaint, or the clock did not move, the two tables are
    equal altogether.  The status change leaves every row's notes alone
    and the notes change leaves every row's status alone. *)
Theorem status_and_notes_changes_commute :
  forall (w : World State) (cid cid' s : string) (t' : Timestamp),
    map content_columns
        (Store.complaints_table
           (db (exec (run [StatusSelect cid s None None; Tick t';
                           SaveNotes cid' None None]) w)))
    = map content_columns
          (Store.complaints_table
             (db (exec (run [SaveNotes cid' None None; Tick t';
                             StatusSelect cid s None None]) w)))
    /\ (cid = cid' \/ t' = clock w ->
        Store.complaints_table
          (db (exec (run [StatusSelect cid s None None; Tick t';
                          SaveNotes cid' None None]) w))
        = Store.complaints_table
            (db (exec (run [SaveNotes cid' None None; Tick t';
                            StatusSelect cid s None None]) w)))
    /\ map company_notes
           (Store.complaints_table
              (db (exec (step (StatusSelect cid s None None)) w)))
       = map company_notes (Store.complaints_table (db w))
    /\ map status
           (Store.complaints_table
              (db (exec (step (SaveNotes cid' None None)) w)))
       = map status (Store.complaints_table (db w)).
Proof.
  intros w cid cid' s t'.
  assert (H1 :
    Store.complaints_table
      (db (exec (run [StatusSelect cid s None None; Tick t';
                      SaveNotes cid' None None]) w))
    = map (fun r => if id r === cid'
                    then restamped_notes (companyNotes (ui w)) t' r else r)
          (map (fun r => if id r === cid
                         then restamped_status s (clock w) r else r)
               (Store.complaints_table (db w)))).
  { cbn [run]. rewrite !exec_seq, exec_ret.
    rewrite (proj1 (notes_saved _ _ _)).
    destruct (clock_moved t' (exec (step (StatusSelect cid s None None)) w))
      as (-> & -> & ->).
    destruct (status_changed cid s None w) as (-> & -> & _).
    reflexivity. }
  assert (H2 :
    Store.complaints_table
      (db (exec (run [SaveNotes cid' None None; Tick t';
                      StatusSelect cid s None None]) w))
    = map (fun r => if id r === cid
                    then restamped_status s t' r else r)
          (map (fun r => if id r === cid'
                         then restamped_notes (companyNotes (ui w)) (clock w) r
                         else r)
               (Store.complaints_table (db w)))).
  { cbn [run]. rewrite !exec_seq, exec_ret.
    rewrite (proj1 (status_changed _ _ _ _)).
    destruct (clock_moved t' (exec (step (SaveNotes cid' None None)) w))
      as (-> & _ & ->).
    rewrite (proj1 (notes_saved _ _ _)). reflexivity. }
  rewrite H1, H2. split; [|split; [|split]].
  - rewrite !map_map. apply map_ext. intros c.
    destruct (id c === cid) eqn:Hs; destruct (id c === cid') eqn:Hn;
      cbn [id restamped_status restamped_notes]; rewrite ?Hs, ?Hn;
      reflexivity.
  - intros Hsame. rewrite !map_map. apply map_ext. intros c.
    destruct Hsame as [<-| ->].
    + destruct (id c === cid) eqn:Hs;
        cbn [id restamped_status restamped_notes]; rewrite ?Hs; reflexivity.
    + destruct (id c === cid) eqn:Hs; destruct (id c === cid') eqn:Hn;
        cbn [id restamped_status restamped_notes]; rewrite ?Hs, ?Hn;
        reflexivity.
  - rewrite (proj1 (status_changed _ _ _ _)), map_map.
    apply map_ext. intros c. destruct (id c === cid); reflexivity.
  - rewrite (proj1 (notes_saved _ _ _)), map_map.
    apply map_ext. intros c. destruct (id c === cid'); reflexivity.
Qed.

(** With the clock moving on, the two orders do differ in [updated_at]
    when the changes are for two different complaints. *)
Example orders_differ_in_updated_at :
  map updated_at
      (Store.complaints_table
         (db (exec (CompanyDashboard.run
                      [CompanyDashboard.StatusSelect "c-3" "completed" None None;
                       CompanyDashboard.Tick 700;
                       CompanyDashboard.SaveNotes "c-2" None None])
                   Sample.company_world)))
  = [150; 700; 500; 410; 460]
  /\ map updated_at
         (Store.complaints_table
            (db (exec (CompanyDashboard.run
                         [CompanyDashboard.SaveNotes "c-2" None None;
                          CompanyDashboard.Tick 700;
                          CompanyDashboard.StatusSelect "c-3" "completed"
                            None None])
                      Sample.company_world)))
     = [150; 500; 700; 410; 460].
Proof. split; reflexivity. Qed.

(** X13: the notes that a served save writes are the ones in the
    textarea: the complaint's own notes when the dialog was opened and
    saved untouched (no notes are stored as the empty text), the typed text
    when something was typed.  Afterwards the dialog is closed and the
    textarea empty. *)
Theorem saved_notes_are_the_textarea :
  forall (w : World State) (c : JoinedComplaint) (n : string)
         (o' : Store.Outcome),
    (forall r,
        In r (Store.complaints_table
                (db (exec (run [ViewDetails c; SaveNotes (id c) None o']) w))) ->
        id r = id c ->
        company_notes r = Some (Js.or_string (company_notes c) ""))
    /\ (forall r,
           In r (Store.complaints_table
                   (db (exec (run [ViewDetails c; NotesTyped n;
                                   SaveNotes (id c) None o']) w))) ->
           id r = id c ->
           company_notes r = Some n)
    /\ selectedComplaint
         (ui (exec (run [ViewDetails c; NotesTyped n;
                         SaveNotes (id c) None o']) w)) = None
    /\ companyNotes
         (ui (exec (run [ViewDetails c; NotesTyped n;
                         SaveNotes (id c) None o']) w)) = "".
Proof.
  intros w c n o'. cbn [run]. rewrite !exec_seq, !exec_ret.
  split; [|split].
  - intros r Hr Hid.
    rewrite (proj1 (notes_saved _ _ _)) in Hr.
    destruct (patched_rows _ _ _ _ Hr Hid) as (r0 & _ & _ & ->).
    cbn. f_equal; apply dialog_opened.
  - intros r Hr Hid.
    rewrite (proj1 (notes_saved _ _ _)) in Hr.
    destruct (patched_rows _ _ _ _ Hr Hid) as (r0 & _ & _ & ->).
    cbn. f_equal; apply notes_typed.
  - apply notes_saved.
Qed.

Lemma update_keeps_fixed_columns (cid : string) (p : Store.Patch)
    (l : list Complaint) :
  map fixed_columns
      (map (fun c => if id c === cid then Store.apply_patch p c else c) l)
  = map fixed_columns l.
Proof.
  rewrite map_map. apply map_ext. intros c.
  destruct (id c === cid); reflexivity.
Qed.

Lemma company_step_fixed_columns (e : Event) (w : World State) :
  company_local e = true ->
  map fixed_columns (Store.complaints_table (db (exec (step e) w)))
  = map fixed_columns (Store.complaints_table (db w))
  /\ Store.users_table (db (exec (step e) w)) = Store.users_table (db w).
Proof.
  unfold step. rewrite exec_seq.
  destruct (effect_world (exec (handle e) w)) as (-> & _).
  destruct e as [o|f|cid s o o'|c|n|cid o o'| |d|t];
    cbn [company_local handle]; intros Hl; try discriminate Hl;
    try (split; reflexivity).
  - unfold fetchComplaints. plumbing. cbn. destruct o; split; reflexivity.
  - destruct o as [err|].
    + unfold updateComplaintStatus. plumbing. cbn. split; reflexivity.
    + rewrite updateComplaintStatus_served_table.
      split; [apply update_keeps_fixed_columns|].
      unfold updateComplaintStatus, fetchComplaints. plumbing. cbn.
      destruct o'; reflexivity.
  - destruct o as [err|].
    + unfold saveCompanyNotes. plumbing. cbn. split; reflexivity.
    + rewrite saveCompanyNotes_served_table.
      split; [apply update_keeps_fixed_columns|].
      unfold saveCompanyNotes, fetchComplaints. plumbing. cbn.
      destruct o'; reflexivity.
Qed.

(** X14: nothing done on the company dashboard adds, removes or reorders
    a row, or changes a complaint's id, owner, bicycle model, issue type,
    description, priority or creation time; the users table is not
    touched either. *)
Theorem company_events_keep_rows_and_owners :
  forall (es : list Event) (w : World State),
    forallb company_local es = true ->
    map fixed_columns (Store.complaints_table (db (exec (run es) w)))
    = map fixed_columns (Store.complaints_table (db w))
    /\ Store.users_table (db (exec (run es) w)) = Store.users_table (db w).
Proof.
  induction es as [|e es IH]; intros w Hes; cbn [run].
  - split; reflexivity.
  - cbn [forallb] in Hes. apply andb_true_iff in Hes. destruct Hes as [He Hes].
    rewrite exec_seq.
    destruct (IH (exec (step e) w) Hes) as [Hc Hu].
    destruct (company_step_fixed_columns e w He) as [Hc' Hu'].
    split; congruence.
Qed.

(** X15: a served status change or notes change made on the company
    dashboard reaches the complaint's owner: a served refresh of the
    owner's dashboard on the resulting tables lists the complaint with the
    new status, or the new notes, and the staff clock's reading as its last
    update. *)
Theorem staff_change_reaches_owner :
  forall (w : World State) (wc : World CustomerDashboard.State)
         (viewer : Session) (cid s : string) (o' : Store.Outcome)
         (c : Complaint),
    In c (Store.complaints_table (db w)) ->
    id c = cid ->
    user_id c = session_user_id viewer ->
    (db wc = db (exec (updateComplaintStatus cid s None o') w) ->
     exists c',
       In c' (CustomerDashboard.complaints
                (ui (exec (CustomerDashboard.fetchComplaints viewer None) wc)))
       /\ id c' = cid /\ status c' = s /\ updated_at c' = clock w
       /\ description c' = description c)
    /\ (db wc = db (exec (saveCompanyNotes cid None o') w) ->
        exists c',
          In c' (CustomerDashboard.complaints
                   (ui (exec (CustomerDashboard.fetchComplaints viewer None) wc)))
          /\ id c' = cid /\ company_notes c' = Some (companyNotes (ui w))
          /\ status c' = status c /\ updated_at c' = clock w).
Proof.
  intros w wc viewer cid s o' c Hc Hid Hown.
  assert (Hlist : forall p,
             In (Store.apply_patch p c)
                (map (fun r => if id r === cid then Store.apply_patch p r else r)
                     (Store.complaints_table (db w))) ->
             db wc
             = Store.mkDatabase
                 (map (fun r => if id r === cid then Store.apply_patch p r else r)
                      (Store.complaints_table (db w)))
                 (Store.users_table (db wc)) ->
             In (Store.apply_patch p c)
                (CustomerDashboard.complaints
                   (ui (exec (CustomerDashboard.fetchComplaints viewer None) wc)))).
  { intros p Hin Hdb.
    apply (proj1 (customer_refresh_rows viewer wc (Store.apply_patch p c))).
    rewrite Hdb. cbn. auto. }
  split; intros Hdb.
  - exists (Store.apply_patch (Store.mkPatch (Some s) None (Some (clock w))) c).
    split; [|cbn; auto].
    apply Hlist; [now apply patched_row_present|].
    rewrite Hdb. destruct (db (exec _ w)) eqn:Hd.
    rewrite <- updateComplaintStatus_served_table with (o' := o'), Hd.
    reflexivity.
  - exists (Store.apply_patch
              (Store.mkPatch None (Some (companyNotes (ui w))) (Some (clock w))) c).
    split; [|cbn; auto].
    apply Hlist; [now apply patched_row_present|].
    rewrite Hdb. destruct (db (exec _ w)) eqn:Hd.
    rewrite <- saveCompanyNotes_served_table with (o' := o'), Hd.
    reflexivity.
Qed.

End CompanyListAndMutations.

Lemma update_of_unknown_id_is_silent_witness :
  Store.complaints_table
    (db (exec (CompanyDashboard.saveCompanyNotes "c-404" None None)
              Sample.company_world))
  = Store.complaints_table Sample.tables
  /\ alerts (exec (CompanyDashboard.saveCompanyNotes "c-404" None None)
                  Sample.company_world)
     = ["Notes saved successfully!"].
Proof.
  assert (Hnone : forall c,
             In c (Store.complaints_table (db Sample.company_world)) ->
             id c <> "c-404").
  { cbn. intros c [<-|[<-|[<-|[<-|[<-|[]]]]]]; discriminate. }
  destruct (update_of_unknown_id_is_silent Sample.company_world
              "c-404" "completed" None Hnone) as (_ & _ & Htable & Halert).
  split; [exact Htable | exact Halert].
Defined.

Lemma company_events_keep_rows_and_owners_witness :
  map fixed_columns
      (Store.complaints_table
         (db (exec (CompanyDashboard.run
                      [CompanyDashboard.StatusSelect "c-3" "completed" None None;
                       CompanyDashboard.ViewDetails
                         (Store.join_user (Store.users_table Sample.tables)
                                          Sample.c2);
                       CompanyDashboard.NotesTyped "pads fitted";
                       CompanyDashboard.SaveNotes "c-2" None None])
                   Sample.company_world)))
  = map fixed_columns (Store.complaints_table Sample.tables).
Proof.
  apply (company_events_keep_rows_and_owners
           [CompanyDashboard.StatusSelect "c-3" "completed" None None;
            CompanyDashboard.ViewDetails
              (Store.join_user (Store.users_table Sample.tables) Sample.c2);
            CompanyDashboard.NotesTyped "pads fitted";
            CompanyDashboard.SaveNotes "c-2" None None]
           Sample.company_world).
  reflexivity.
Defined.

Lemma staff_change_reaches_owner_witness :
  exists c',
    In c' (CustomerDashboard.complaints
             (ui (exec (CustomerDashboard.fetchComplaints Sample.alice None)
                       (mkWorld CustomerDashboard.initial
                          (db (exec (CompanyDashboard.updateComplaintStatus
                                       "c-3" "completed" None None)
                                    Sample.company_world))
                          [] [] 600))))
    /\ id c' = "c-3" /\ status c' = "completed" /\ updated_at c' = 500
    /\ description c' = "Blank screen".
Proof.
  apply (proj1 (staff_change_reaches_owner Sample.company_world
                  (mkWorld CustomerDashboard.initial
                     (db (exec (CompanyDashboard.updateComplaintStatus
                                  "c-3" "completed" None None)
                               Sample.company_world))
                     [] [] 600)
                  Sample.alice "c-3" "completed" None Sample.c3
                  (or_intror (or_intror (or_introl eq_refl)))
                  eq_refl eq_refl)).
  reflexivity.
Defined.

(** ** Badge colours *)

Section BadgeColours.

(** Splits on every comparison of a literal key with the looked-up key. *)
Ltac by_key :=
  unfold JsObject.get_or, JsObject.inherited_keys;
  cbn [JsObject.own existsb orb]; unfold Js.strict_eq;
  repeat match goal with
         | |- context [String.eqb ?a ?b] =>
             destruct (String.eqb_spec a b);
             [ subst; exfalso;
               match goal with H : ~ _ |- _ => solve [apply H; auto 20] end
             | cbn [JsObject.own existsb orb] ]
         end.

(** X16: both dashboards colour a status badge the same way.  Each of
    pending, in-progress, completed and cancelled has a colour of its own,
    none of them the grey fallback; every other status gets the fallback,
    except that a status spelled like a property every object inherits
    (such as constructor) gets that property instead of a colour. *)
Theorem status_badge_colours :
  forall s s' : string,
    CustomerDashboard.getStatusColor s = CompanyDashboard.getStatusColor s
    /\ (In s known_statuses ->
        exists hex,
          CompanyDashboard.getStatusColor s = JsObject.Str hex
          /\ hex <> "#6b7280")
    /\ (In s known_statuses -> In s' known_statuses ->
        CompanyDashboard.getStatusColor s = CompanyDashboard.getStatusColor s' ->
        s = s')
    /\ (~ In s known_statuses -> ~ In s JsObject.inherited_keys ->
        CompanyDashboard.getStatusColor s = JsObject.Str "#6b7280")
    /\ (In s JsObject.inherited_keys ->
        CompanyDashboard.getStatusColor s = JsObject.Inherited s).
Proof.
  intros s s'. split; [reflexivity|].
  unfold known_statuses, JsObject.inherited_keys. cbn [In].
  split; [|split; [|split]].
  - intros [<-|[<-|[<-|[<-|[]]]]]; eexists; (split; [reflexivity|discriminate]).
  - intros [<-|[<-|[<-|[<-|[]]]]] [<-|[<-|[<-|[<-|[]]]]];
      cbn; intros H; solve [reflexivity | discriminate H].
  - intros Hk Hi.
    unfold CompanyDashboard.getStatusColor. by_key. reflexivity.
  - intros Hi.
    repeat (destruct Hi as [<-|Hi]; [reflexivity|]). destruct Hi.
Qed.

(** X17: the same for priorities: low, medium and high have three
    different colours, none of them the fallback, in both dashboards, and
    every other priority that is not an inherited property name gets the
    fallback. *)
Theorem priority_badge_colours :
  forall p p' : string,
    CustomerDashboard.getPriorityColor p = CompanyDashboard.getPriorityColor p
    /\ (In p ["low"; "medium"; "high"] ->
        exists hex,
          CompanyDashboard.getPriorityColor p = JsObject.Str hex
          /\ hex <> "#6b7280")
    /\ (In p ["low"; "medium"; "high"] -> In p' ["low"; "medium"; "high"] ->
        CompanyDashboard.getPriorityColor p = CompanyDashboard.getPriorityColor p' ->
        p = p')
    /\ (~ In p ["low"; "medium"; "high"] -> ~ In p JsObject.inherited_keys ->
        CompanyDashboard.getPriorityColor p = JsObject.Str "#6b7280").
Proof.
  intros p p'. split; [reflexivity|].
  unfold JsObject.inherited_keys. cbn [In].
  split; [|split].
  - intros [<-|[<-|[<-|[]]]]; eexists; (split; [reflexivity|discriminate]).
  - intros [<-|[<-|[<-|[]]]] [<-|[<-|[<-|[]]]];
      cbn; intros H; solve [reflexivity | discriminate H].
  - intros Hk Hi.
    unfold CompanyDashboard.getPriorityColor. by_key. reflexivity.
Qed.

End BadgeColours.

(** ** App and Login *)

Section AppFacts.

Import App.






(** X19: when the role lookup of a user whose users row was appended
    by a served sign-up is answered, the role becomes customer, whatever
    role the app held before, whatever the users table held before and
    whether the lookup is served or fails; a session of that user is then
    rendered the customer dashboard. *)
Theorem signed_up_user_gets_customer_dashboard :
  forall (wl : World Login.State) (auth : Login.SignUpResult) (uid : string)
         (w : World State) (s : Session) (o' : Store.Outcome),
    Login.signUpError auth = None ->
    Login.authData_user auth = Some uid ->
    session (ui w) = Some s ->
    session_user_id s = uid ->
    db w = db (exec (Login.handleSignUp auth None) wl) ->
    Store.users_table (db w)
    = Store.users_table (db wl) ++ [signed_up_row uid (ui wl)]
    /\ userRole (ui (exec (react (RoleLookupAnswers uid o')) w))
       = Some "customer"
    /\ render (ui (exec (react (RoleLookupAnswers uid o')) w))
       = CustomerDashboardScreen s.
Proof.
  intros wl auth uid w s o' Herr Huser Hsession Hs Hdb.
  assert (Hrow : Store.users_table (db w)
                 = Store.users_table (db wl) ++ [signed_up_row uid (ui wl)]).
  { rewrite Hdb. unfold Login.handleSignUp. plumbing. cbn.
    rewrite Herr, Huser. reflexivity. }
  split; [exact Hrow|].
  cbn [react]. rewrite fetchUserRole_ui.
  unfold render. cbn [loading session userRole]. rewrite Hsession.
  unfold Store.select_role_single.
  destruct o' as [err|]; [split; reflexivity|].
  rewrite Hrow, filter_app. cbn [List.filter signed_up_row u_id].
  rewrite strict_eq_refl.
  destruct (List.filter _ (Store.users_table (db wl))) as [|u [|u' l]];
    split; reflexivity.
Qed.

(** X20: a sign-up that fails, at the identity provider or at the insert
    of the users row, adds no row to the users table, shows the error, and
    keeps everything the user typed and the sign-up mode, so the user can
    retry; no success is announced. *)
Theorem failed_sign_up_adds_no_row_and_keeps_draft :
  forall (wl : World Login.State) (auth : Login.SignUpResult)
         (o : Store.Outcome) (e : string),
    Login.signUpError auth = Some e
    \/ (Login.signUpError auth = None
        /\ Login.authData_user auth <> None /\ o = Some e) ->
    db (exec (Login.handleSignUp auth o) wl) = db wl
    /\ alerts (exec (Login.handleSignUp auth o) wl) = alerts wl
    /\ ui (exec (Login.handleSignUp auth o) wl)
       = Login.mkState false (Login.isSignUp (ui wl)) (Login.email (ui wl))
           (Login.password (ui wl)) (Login.name (ui wl)) (Login.phone (ui wl))
           (Some e).
Proof.
  intros wl auth o e [Herr|(Herr & Huser & ->)];
    unfold Login.handleSignUp; plumbing; cbn; rewrite Herr.
  - cbn. auto.
  - destruct (Login.authData_user auth) as [uid|]; [|contradiction].
    cbn. auto.
Qed.

End AppFacts.


Lemma signed_up_user_gets_customer_dashboard_witness :
  App.render
    (ui (exec (App.react (App.RoleLookupAnswers "carol" None))
              (mkWorld (App.mkState
                          (Some (mkSession "carol" "carol@example.com"))
                          (Some "company") false)
                 (db (exec (Login.handleSignUp
                              (Login.mkSignUpResult (Some "carol") None) None)
                           (mkWorld (Login.mkState false true "carol@example.com"
                                       "secret" "Carol" "555-0104" None)
                                    Sample.tables [] [] 500)))
                 [] [] 500)))
  = App.CustomerDashboardScreen (mkSession "carol" "carol@example.com").
Proof.
  apply (signed_up_user_gets_customer_dashboard
           (mkWorld (Login.mkState false true "carol@example.com"
                       "secret" "Carol" "555-0104" None)
                    Sample.tables [] [] 500)
           (Login.mkSignUpResult (Some "carol") None) "carol");
    reflexivity.
Defined.

Lemma failed_sign_up_adds_no_row_and_keeps_draft_witness :
  db (exec (Login.handleSignUp (Login.mkSignUpResult (Some "carol") None)
              (Some "duplicate key value"))
           (mkWorld (Login.mkState false true "carol@example.com"
                       "secret" "Carol" "555-0104" None)
                    Sample.tables [] [] 500))
  = Sample.tables.
Proof.
  apply (failed_sign_up_adds_no_row_and_keeps_draft
           (mkWorld (Login.mkState false true "carol@example.com"
                       "secret" "Carol" "555-0104" None)
                    Sample.tables [] [] 500)
           (Login.mkSignUpResult (Some "carol") None)
           (Some "duplicate key value") "duplicate key value").
  right. split; [reflexivity|]. split; [discriminate | reflexivity].
Defined.
